(** * Audio stress analyzer: the page script [script.js]

    A shallow embedding of [analyzer/static/analyzer/js/script.js]: the
    handlers the script registers on the page (file selection, drag and
    drop, the analyze button and the promise chain behind it) and the
    result renderer [updateResults], as state transformers over a record of
    the DOM properties and module variables the script touches.

    - JavaScript numbers are IEEE 754 binary64 values; they are modelled
      by the Standard Library's executable specification [spec_float] with
      [prec = 53] and [emax = 1024], so that [score * 100], [score < 0.3],
      [toFixed] and the number-to-string conversion of template literals
      compute what an engine computes.
    - The body of a response is any JSON value; property access, the
      conversions behind [||], [+], [*] and [<], and [Object.entries]
      follow the language, so that a malformed body takes the path it
      takes in the browser (a thrown [TypeError], caught by the chain).
    - A handler runs to completion. The promise chain of a submission is
      run in one piece when its exchange settles: between the call of
      [fetch] and that moment any other event may happen.
    - The world outside the document (alerts, the console, requests,
      timers) is a log that the script only appends to.

    The definitions come first, the lemmas and the properties of the
    script after them. *)

From Stdlib Require Import ZArith QArith Qround List String Ascii Bool.
From Stdlib Require Import Lia Lqa Sorted Permutation.
From Stdlib Require Import SpecFloat DecimalString.
Import ListNotations.

#[local] Set Warnings "-register-all".

Local Open Scope string_scope.
Local Open Scope Z_scope.

(** ** JavaScript numbers *)

Module Number.

Definition prec : Z := 53.
Definition emax : Z := 1024.

Definition t : Type := spec_float.

Definition NaN : t := S754_nan.
Definition zero : t := S754_zero false.

(** F(a / b): the number value of a positive rational, rounded to nearest,
    ties to even. *)
Definition of_ratio (a b : positive) : t :=
  SFdiv prec emax (S754_finite false a 0) (S754_finite false b 0).

(** The number value of a non-negative decimal literal [d * 10^-k]
    ([0.3] is [of_decimal 3 1]). *)
Definition of_decimal (d : Z) (k : Z) : t :=
  match d with
  | Zpos p => of_ratio p (Z.to_pos (10 ^ k))
  | _ => zero
  end.

Definition of_Z (z : Z) : t := binary_normalize prec emax z 0 false.

Definition mul (x y : t) : t := SFmul prec emax x y.
Definition ltb (x y : t) : bool := SFltb x y.
Definition leb (x y : t) : bool := SFleb x y.

Definition eqb_repr (x y : t) : bool :=
  match x, y with
  | S754_zero a, S754_zero b => Bool.eqb a b
  | S754_infinity a, S754_infinity b => Bool.eqb a b
  | S754_nan, S754_nan => true
  | S754_finite a m e, S754_finite b m' e' =>
      Bool.eqb a b && Pos.eqb m m' && Z.eqb e e'
  | _, _ => false
  end.

(** The mathematical value of the magnitude of a finite number. *)
Definition magnitude (m : positive) (e : Z) : Q :=
  match e with
  | Zneg p => Zpos m # 2 ^ p
  | _ => inject_Z (Zpos m * 2 ^ e)
  end.

(** The real value of a number that has one (zeros and finite numbers). *)
Definition value (x : t) : option Q :=
  match x with
  | S754_zero _ => Some 0%Q
  | S754_finite s m e =>
      Some (if s then Qopp (magnitude m e) else magnitude m e)
  | _ => None
  end.

Definition pow10 (n : Z) : Q := Qpower 10 n.

Definition decimal (n : Z) : string :=
  NilZero.string_of_uint (N.to_uint (Z.to_N n)).

Fixpoint zeros (n : nat) : string :=
  match n with
  | O => ""
  | S n' => String "0" (zeros n')
  end.

Definition strlen (s : string) : Z := Z.of_nat (String.length s).

(** *** Number::toString, radix 10 *)

(** [n0] with [10^(n0-1) <= v < 10^n0], read off the integer part of
    [v * 10^400] (every positive double is at least [2^-1074]). *)
Definition decimal_exponent (v : Q) : Z :=
  strlen (decimal (Qfloor (v * pow10 400)%Q)) - 400.

Definition Qabs_diff (a b : Q) : Q :=
  if Qle_bool a b then (b - a)%Q else (a - b)%Q.

(** The candidates [(s, n)] of [k] digits: [10^(k-1) <= s < 10^k] and
    F(s * 10^(n-k)) is [x]. *)
Definition represents (x : t) (k : Z) (sn : Z * Z) : bool :=
  let '(s, n) := sn in
  (10 ^ (k - 1) <=? s) && (s <? 10 ^ k) &&
  match s with
  | Zpos p =>
      eqb_repr x
        (if 0 <=? n - k
         then of_ratio (p * Z.to_pos (10 ^ (n - k))) 1
         else of_ratio p (Z.to_pos (10 ^ (k - n))))
  | _ => false
  end.

Definition candidates (x : t) (v : Q) (n0 k : Z) : list (Z * Z) :=
  let at_n n :=
    let s := Qfloor (v / pow10 (n - k))%Q in [(s, n); (s + 1, n)] in
  filter (represents x k) (at_n n0 ++ at_n (n0 + 1)).

Definition closer (v : Q) (k : Z) (a b : Z * Z) : Z * Z :=
  let dist sn := Qabs_diff (inject_Z (fst sn) * pow10 (snd sn - k))%Q v in
  match Qcompare (dist a) (dist b) with
  | Lt => a
  | Gt => b
  | Eq => if Z.even (fst a) then a else b
  end.

Definition closest (v : Q) (k : Z) (l : list (Z * Z)) : option (Z * Z) :=
  match l with
  | [] => None
  | c :: cs => Some (fold_left (closer v k) cs c)
  end.

(** The least [k] that has a candidate; 17 digits identify any double. *)
Fixpoint shortest (fuel : nat) (x : t) (v : Q) (n0 k : Z) : Z * Z * Z :=
  match closest v k (candidates x v n0 k) with
  | Some (s, n) => (s, n, k)
  | None =>
      match fuel with
      | O => (Qfloor (v / pow10 (n0 - k))%Q, n0, k)
      | S fuel' => shortest fuel' x v n0 (k + 1)
      end
  end.

Definition exponent_part (n : Z) : string :=
  "e" ++ (if 0 <=? n - 1 then "+" else "-") ++ decimal (Z.abs (n - 1)).

Definition format (s n k : Z) : string :=
  let digits := decimal s in
  if (k <=? n) && (n <=? 21) then
    digits ++ zeros (Z.to_nat (n - k))
  else if (0 <? n) && (n <=? 21) then
    substring 0 (Z.to_nat n) digits ++ "." ++
    substring (Z.to_nat n) (Z.to_nat (k - n)) digits
  else if (-6 <? n) && (n <=? 0) then
    "0." ++ zeros (Z.to_nat (- n)) ++ digits
  else if k =? 1 then
    digits ++ exponent_part n
  else
    substring 0 1 digits ++ "." ++
    substring 1 (Z.to_nat (k - 1)) digits ++ exponent_part n.

Definition toString_pos (m : positive) (e : Z) : string :=
  let x := S754_finite false m e in
  let v := magnitude m e in
  let '(s, n, k) := shortest 16 x v (decimal_exponent v) 1 in
  format s n k.

Definition toString (x : t) : string :=
  match x with
  | S754_nan => "NaN"
  | S754_zero _ => "0"
  | S754_infinity s => if s then "-Infinity" else "Infinity"
  | S754_finite s m e =>
      (if s then "-" else "") ++ toString_pos m e
  end.

(** *** Number.prototype.toFixed *)

(** The integer [n] for which [n / 10^f - v] is as close to zero as
    possible, the larger one when there are two. *)
Definition nearest_scaled (v : Q) (f : Z) : Z :=
  Qfloor (v * pow10 f + (1 # 2))%Q.

Definition fixed_digits (n : Z) (f : Z) : string :=
  let m := decimal n in
  if f =? 0 then m
  else
    let m := if strlen m <=? f
             then zeros (Z.to_nat (f + 1 - strlen m)) ++ m else m in
    let k := strlen m in
    substring 0 (Z.to_nat (k - f)) m ++ "." ++
    substring (Z.to_nat (k - f)) (Z.to_nat f) m.

Definition toFixed (x : t) (f : Z) : string :=
  match x with
  | S754_nan | S754_infinity _ => toString x
  | S754_zero _ => fixed_digits 0 f
  | S754_finite s m e =>
      let v := magnitude m e in
      (if s then "-" else "") ++
      (if Qle_bool (pow10 21) v then toString_pos m e
       else fixed_digits (nearest_scaled v f) f)
  end.

End Number.

(** ** Strings

    A JavaScript string is modelled by a [string] whose characters are the
    code units below 256. *)

Module Str.

Definition code (c : ascii) : Z := Z.of_nat (nat_of_ascii c).

Definition between (lo hi : Z) (c : ascii) : bool :=
  (lo <=? code c) && (code c <=? hi).

Definition is_digit : ascii -> bool := between 48 57.
Definition is_lower : ascii -> bool := between 97 122.
Definition is_upper : ascii -> bool := between 65 90.

(** The class [\w] of a regular expression without the [u] and [i] flags. *)
Definition is_word (c : ascii) : bool :=
  is_digit c || is_lower c || is_upper c || Ascii.eqb c "_".

(** [toUpperCase] on a character matched by [\w]. *)
Definition toUpperCase (c : ascii) : ascii :=
  if is_lower c then ascii_of_nat (nat_of_ascii c - 32) else c.

Definition startsWith (s p : string) : bool := String.prefix p s.

Fixpoint map (f : ascii -> ascii) (s : string) : string :=
  match s with
  | EmptyString => EmptyString
  | String c r => String (f c) (map f r)
  end.

(** [s.replace(/_/g, ' ')] *)
Definition replace_underscores : string -> string :=
  map (fun c => if Ascii.eqb c "_" then " "%char else c).

(** [s.replace(/\b\w/g, l => l.toUpperCase())]: a match is a word character
    that stands at the start or after a character that is not one;
    [prev] tells whether the character before is a word character. *)
Fixpoint capitalize_from (prev : bool) (s : string) : string :=
  match s with
  | EmptyString => EmptyString
  | String c r =>
      String (if is_word c && negb prev then toUpperCase c else c)
             (capitalize_from (is_word c) r)
  end.

Definition capitalize_words : string -> string := capitalize_from false.

Definition chars (s : string) : list ascii := list_ascii_of_string s.

Definition dquote : string := String (ascii_of_nat 34) EmptyString.
Definition newline : string := String (ascii_of_nat 10) EmptyString.

Fixpoint spaces (n : nat) : string :=
  match n with
  | O => EmptyString
  | S n' => String " " (spaces n')
  end.

End Str.

(** ** The values a parsed JSON body can hold, and the conversions the
    script's operators apply to them *)

Module JS.

Inductive value : Type :=
| VUndefined
| VNull
| VBool (b : bool)
| VNum (x : Number.t)
| VStr (s : string)
| VArr (items : list value)
| VObj (props : list (string * value)).
(** [props] lists an object's own properties in creation order. *)

Record error : Type := Error { name : string; message : string }.

Definition TypeError (msg : string) : error := Error "TypeError" msg.

(** How an evaluation ends, and how a promise settles. *)
Inductive completion (A : Type) : Type :=
| Normal (a : A)
| Throw (e : error).
Arguments Normal {A} a.
Arguments Throw {A} e.

(** *** StringToNumber *)

Definition is_space (c : ascii) : bool :=
  Str.between 9 13 c || (Str.code c =? 32) || (Str.code c =? 160).

Fixpoint drop_space (l : list ascii) : list ascii :=
  match l with
  | c :: r => if is_space c then drop_space r else l
  | [] => []
  end.

Definition trim (l : list ascii) : list ascii :=
  rev (drop_space (rev (drop_space l))).

Definition digit_value (base : Z) (c : ascii) : option Z :=
  let d :=
    if Str.is_digit c then Str.code c - 48
    else if Str.between 97 102 c then Str.code c - 87
    else if Str.between 65 70 c then Str.code c - 55
    else base in
  if d <? base then Some d else None.

Fixpoint digits_value (base acc : Z) (l : list ascii) : option Z :=
  match l with
  | [] => Some acc
  | c :: r =>
      match digit_value base c with
      | Some d => digits_value base (acc * base + d) r
      | None => None
      end
  end.

Definition radix_literal (base : Z) (l : list ascii) : Number.t :=
  match l, digits_value base 0 l with
  | _ :: _, Some n => Number.of_Z n
  | _, _ => Number.NaN
  end.

Fixpoint span_digits (l : list ascii) : list ascii * list ascii :=
  match l with
  | c :: r =>
      if Str.is_digit c
      then let '(ds, rest) := span_digits r in (c :: ds, rest)
      else ([], l)
  | [] => ([], [])
  end.

Definition exponent_part (l : list ascii) : option Z :=
  match l with
  | [] => Some 0
  | c :: r =>
      if Ascii.eqb c "e" || Ascii.eqb c "E" then
        let '(sign, ds) :=
          match r with
          | "+"%char :: ds => (1, ds)
          | "-"%char :: ds => (-1, ds)
          | _ => (1, r)
          end in
        match ds, digits_value 10 0 ds with
        | _ :: _, Some n => Some (sign * n)
        | _, _ => None
        end
      else None
  end.

(** The number value of [d * 10^e], [d >= 0], with the sign [neg]. *)
Definition scaled (neg : bool) (d e : Z) : Number.t :=
  match d with
  | Zpos p =>
      let x := if 0 <=? e
               then Number.of_ratio (p * Z.to_pos (10 ^ e)) 1
               else Number.of_ratio p (Z.to_pos (10 ^ (- e))) in
      if neg then SFopp x else x
  | _ => S754_zero neg
  end.

Definition decimal_literal (neg : bool) (l : list ascii) : Number.t :=
  if String.eqb (string_of_list_ascii l) "Infinity" then S754_infinity neg
  else
    let '(ip, r1) := span_digits l in
    let '(fp, r2) :=
      match r1 with
      | "."%char :: r => span_digits r
      | _ => ([], r1)
      end in
    match (ip ++ fp)%list, exponent_part r2 with
    | (_ :: _) as ds, Some e =>
        match digits_value 10 0 ds with
        | Some d => scaled neg d (e - Z.of_nat (List.length fp))
        | None => Number.NaN
        end
    | _, _ => Number.NaN
    end.

Definition StringToNumber (s : string) : Number.t :=
  match trim (Str.chars s) with
  | [] => Number.zero
  | "0"%char :: c :: r =>
      if Ascii.eqb c "x" || Ascii.eqb c "X" then radix_literal 16 r
      else if Ascii.eqb c "o" || Ascii.eqb c "O" then radix_literal 8 r
      else if Ascii.eqb c "b" || Ascii.eqb c "B" then radix_literal 2 r
      else decimal_literal false ("0"%char :: c :: r)
  | "+"%char :: r => decimal_literal false r
  | "-"%char :: r => decimal_literal true r
  | l => decimal_literal false l
  end.

(** *** ToString, ToBoolean, ToNumber *)

Definition bind {A B : Type} (c : completion A) (k : A -> completion B)
  : completion B :=
  match c with
  | Normal a => k a
  | Throw e => Throw e
  end.

(** The object has an own property named [k]. *)
Definition has_own (k : string) (props : list (string * value)) : bool :=
  existsb (fun kv => String.eqb k (fst kv)) props.

(** OrdinaryToPrimitive on an object: [Object.prototype.valueOf] gives the
    object back, so the answer is that of [toString]. A value parsed from
    a response holds no function, so an own [toString] property is not
    callable and hides [Object.prototype.toString]: there is no primitive
    to give. *)
Definition object_to_primitive (props : list (string * value))
  : completion string :=
  if has_own "toString" props
  then Throw (TypeError "Cannot convert object to primitive value")
  else Normal "[object Object]".

Fixpoint ToString (v : value) : completion string :=
  match v with
  | VUndefined => Normal "undefined"
  | VNull => Normal "null"
  | VBool b => Normal (if b then "true" else "false")
  | VNum x => Normal (Number.toString x)
  | VStr s => Normal s
  | VArr items =>
      (* Array.prototype.join: null and undefined read as the empty string *)
      let element v :=
        match v with
        | VUndefined | VNull => Normal ""
        | _ => ToString v
        end in
      (fix join (l : list value) : completion string :=
         match l with
         | [] => Normal ""
         | [v] => element v
         | v :: r =>
             bind (element v) (fun first =>
             bind (join r) (fun rest => Normal (first ++ "," ++ rest)))
         end) items
  | VObj props => object_to_primitive props
  end.

Definition is_zero_or_nan (x : Number.t) : bool :=
  match x with
  | S754_zero _ | S754_nan => true
  | _ => false
  end.

Definition ToBoolean (v : value) : bool :=
  match v with
  | VUndefined | VNull => false
  | VBool b => b
  | VNum x => negb (is_zero_or_nan x)
  | VStr s => negb (String.eqb s "")
  | VArr _ | VObj _ => true
  end.

Definition ToNumber (v : value) : completion Number.t :=
  match v with
  | VUndefined => Normal Number.NaN
  | VNull => Normal Number.zero
  | VBool b => Normal (if b then Number.of_Z 1 else Number.zero)
  | VNum x => Normal x
  | VStr s => Normal (StringToNumber s)
  | VArr _ | VObj _ => bind (ToString v) (fun s => Normal (StringToNumber s))
  end.

(** [a || b] *)
Definition or (a b : value) : value := if ToBoolean a then a else b.

(** *** Property access and Object.entries *)

Fixpoint lookup (k : string) (props : list (string * value)) : value :=
  match props with
  | [] => VUndefined
  | (k', v) :: r => if String.eqb k k' then v else lookup k r
  end.

(** [v.k] for the names the script reads ([success], [score], [features],
    [errors], [error]); no prototype, string or array defines one of
    them, so only an object's own property can answer. *)
Definition get (v : value) (k : string) : completion value :=
  match v with
  | VUndefined =>
      Throw (TypeError ("Cannot read properties of undefined (reading '"
                        ++ k ++ "')"))
  | VNull =>
      Throw (TypeError ("Cannot read properties of null (reading '"
                        ++ k ++ "')"))
  | VObj props => Normal (lookup k props)
  | _ => Normal VUndefined
  end.

(** An array index: the canonical decimal form of an integer below
    [2^32 - 1]. *)
Definition array_index (k : string) : option Z :=
  match Str.chars k, digits_value 10 0 (Str.chars k) with
  | _ :: _, Some n =>
      if String.eqb (Number.decimal n) k && (n <? 2 ^ 32 - 1)
      then Some n else None
  | _, _ => None
  end.

Definition is_index (kv : string * value) : bool :=
  match array_index (fst kv) with Some _ => true | None => false end.

Definition index_of (kv : string * value) : Z :=
  match array_index (fst kv) with Some n => n | None => 0 end.

Fixpoint insert_by_index (kv : string * value) (l : list (string * value))
  : list (string * value) :=
  match l with
  | [] => [kv]
  | kv' :: r =>
      if index_of kv <? index_of kv' then kv :: l
      else kv' :: insert_by_index kv r
  end.

Definition sort_by_index (l : list (string * value))
  : list (string * value) :=
  fold_right insert_by_index [] l.

(** OrdinaryOwnPropertyKeys: array indices in ascending numeric order,
    then the other string keys in creation order. *)
Definition own_entries (props : list (string * value))
  : list (string * value) :=
  (sort_by_index (filter is_index props)
   ++ filter (fun kv => negb (is_index kv)) props)%list.

Fixpoint indexed {A : Type} (f : A -> value) (i : Z) (l : list A)
  : list (string * value) :=
  match l with
  | [] => []
  | a :: r => (Number.decimal i, f a) :: indexed f (i + 1) r
  end.

Definition entries (v : value) : completion (list (string * value)) :=
  match v with
  | VUndefined | VNull =>
      Throw (TypeError "Cannot convert undefined or null to object")
  | VBool _ | VNum _ => Normal []
  | VStr s =>
      Normal (indexed (fun c => VStr (String c EmptyString)) 0 (Str.chars s))
  | VArr items => Normal (indexed (fun v => v) 0 items)
  | VObj props => Normal (own_entries props)
  end.

End JS.

(** ** The page: what the script reads and writes *)

(** A [File] of the file API: its name, its declared media type and its
    bytes. *)
Record File : Type := { name : string; type : string; content : string }.

(** A child of [featuresContainer]: the class name and the markup that the
    script assigns to [innerHTML], as text. What the page shows is the
    parse of that markup. *)
Record Element : Type := { className : string; innerHTML : string }.

Inductive FormValue : Type :=
| FileValue (f : File)
| TextValue (s : string).

(** A call of [fetch]. *)
Record Request : Type :=
  { url : string; method : string; body : list (string * FormValue) }.

(** The properties of the elements that the script looks up at start-up;
    a style property holds the text last assigned to it and taken by the
    style: the colours and displays that the script assigns always are, a
    width only when it is a percentage that is not negative. *)
Record Dom : Type :=
  { dropZone_background : string;          (* dropZone.style.background *)
    dropZone_borderColor : string;         (* dropZone.style.borderColor *)
    selectedFile_textContent : string;     (* selectedFile.textContent *)
    analyzeBtn_disabled : bool;            (* analyzeBtn.disabled *)
    loading_display : string;              (* loading.style.display *)
    resultContainer_display : string;      (* resultContainer.style.display *)
    scoreValue_textContent : string;       (* scoreValue.textContent *)
    scoreFill_width : string;              (* scoreFill.style.width *)
    scoreInterpretation_textContent : string;
    featuresContainer : list Element }.    (* children of featuresContainer *)

(** What the script does to the world outside the document, oldest first:
    the alerts shown, the errors logged, the requests sent, the exchanges
    not yet settled and the timers set. *)
Record World : Type :=
  { fileInput_clicks : nat;
    alerts : list string;
    console_errors : list (string * JS.error);
    requests : list Request;
    pending : nat;
    timeouts : list Z }.

Record Page : Type :=
  { currentFile : option File;             (* let currentFile = null *)
    csrfToken : string;
    uploadForm_action : string;
    dom : Dom;
    world : World }.

Definition set_dropZone_background (v : string) (d : Dom) : Dom :=
  {| dropZone_background := v;
     dropZone_borderColor := dropZone_borderColor d;
     selectedFile_textContent := selectedFile_textContent d;
     analyzeBtn_disabled := analyzeBtn_disabled d;
     loading_display := loading_display d;
     resultContainer_display := resultContainer_display d;
     scoreValue_textContent := scoreValue_textContent d;
     scoreFill_width := scoreFill_width d;
     scoreInterpretation_textContent := scoreInterpretation_textContent d;
     featuresContainer := featuresContainer d |}.

Definition set_dropZone_borderColor (v : string) (d : Dom) : Dom :=
  {| dropZone_background := dropZone_background d;
     dropZone_borderColor := v;
     selectedFile_textContent := selectedFile_textContent d;
     analyzeBtn_disabled := analyzeBtn_disabled d;
     loading_display := loading_display d;
     resultContainer_display := resultContainer_display d;
     scoreValue_textContent := scoreValue_textContent d;
     scoreFill_width := scoreFill_width d;
     scoreInterpretation_textContent := scoreInterpretation_textContent d;
     featuresContainer := featuresContainer d |}.

Definition set_selectedFile_textContent (v : string) (d : Dom) : Dom :=
  {| dropZone_background := dropZone_background d;
     dropZone_borderColor := dropZone_borderColor d;
     selectedFile_textContent := v;
     analyzeBtn_disabled := analyzeBtn_disabled d;
     loading_display := loading_display d;
     resultContainer_display := resultContainer_display d;
     scoreValue_textContent := scoreValue_textContent d;
     scoreFill_width := scoreFill_width d;
     scoreInterpretation_textContent := scoreInterpretation_textContent d;
     featuresContainer := featuresContainer d |}.

Definition set_analyzeBtn_disabled (v : bool) (d : Dom) : Dom :=
  {| dropZone_background := dropZone_background d;
     dropZone_borderColor := dropZone_borderColor d;
     selectedFile_textContent := selectedFile_textContent d;
     analyzeBtn_disabled := v; loading_display := loading_display d;
     resultContainer_display := resultContainer_display d;
     scoreValue_textContent := scoreValue_textContent d;
     scoreFill_width := scoreFill_width d;
     scoreInterpretation_textContent := scoreInterpretation_textContent d;
     featuresContainer := featuresContainer d |}.

Definition set_loading_display (v : string) (d : Dom) : Dom :=
  {| dropZone_background := dropZone_background d;
     dropZone_borderColor := dropZone_borderColor d;
     selectedFile_textContent := selectedFile_textContent d;
     analyzeBtn_disabled := analyzeBtn_disabled d; loading_display := v;
     resultContainer_display := resultContainer_display d;
     scoreValue_textContent := scoreValue_textContent d;
     scoreFill_width := scoreFill_width d;
     scoreInterpretation_textContent := scoreInterpretation_textContent d;
     featuresContainer := featuresContainer d |}.

Definition set_resultContainer_display (v : string) (d : Dom) : Dom :=
  {| dropZone_background := dropZone_background d;
     dropZone_borderColor := dropZone_borderColor d;
     selectedFile_textContent := selectedFile_textContent d;
     analyzeBtn_disabled := analyzeBtn_disabled d;
     loading_display := loading_display d; resultContainer_display := v;
     scoreValue_textContent := scoreValue_textContent d;
     scoreFill_width := scoreFill_width d;
     scoreInterpretation_textContent := scoreInterpretation_textContent d;
     featuresContainer := featuresContainer d |}.

Definition set_scoreValue_textContent (v : string) (d : Dom) : Dom :=
  {| dropZone_background := dropZone_background d;
     dropZone_borderColor := dropZone_borderColor d;
     selectedFile_textContent := selectedFile_textContent d;
     analyzeBtn_disabled := analyzeBtn_disabled d;
     loading_display := loading_display d;
     resultContainer_display := resultContainer_display d;
     scoreValue_textContent := v; scoreFill_width := scoreFill_width d;
     scoreInterpretation_textContent := scoreInterpretation_textContent d;
     featuresContainer := featuresContainer d |}.

Definition set_scoreFill_width (v : string) (d : Dom) : Dom :=
  {| dropZone_background := dropZone_background d;
     dropZone_borderColor := dropZone_borderColor d;
     selectedFile_textContent := selectedFile_textContent d;
     analyzeBtn_disabled := analyzeBtn_disabled d;
     loading_display := loading_display d;
     resultContainer_display := resultContainer_display d;
     scoreValue_textContent := scoreValue_textContent d;
     scoreFill_width := v;
     scoreInterpretation_textContent := scoreInterpretation_textContent d;
     featuresContainer := featuresContainer d |}.

Definition set_scoreInterpretation_textContent (v : string) (d : Dom) : Dom :=
  {| dropZone_background := dropZone_background d;
     dropZone_borderColor := dropZone_borderColor d;
     selectedFile_textContent := selectedFile_textContent d;
     analyzeBtn_disabled := analyzeBtn_disabled d;
     loading_display := loading_display d;
     resultContainer_display := resultContainer_display d;
     scoreValue_textContent := scoreValue_textContent d;
     scoreFill_width := scoreFill_width d;
     scoreInterpretation_textContent := v;
     featuresContainer := featuresContainer d |}.

Definition set_featuresContainer (v : list Element) (d : Dom) : Dom :=
  {| dropZone_background := dropZone_background d;
     dropZone_borderColor := dropZone_borderColor d;
     selectedFile_textContent := selectedFile_textContent d;
     analyzeBtn_disabled := analyzeBtn_disabled d;
     loading_display := loading_display d;
     resultContainer_display := resultContainer_display d;
     scoreValue_textContent := scoreValue_textContent d;
     scoreFill_width := scoreFill_width d;
     scoreInterpretation_textContent := scoreInterpretation_textContent d;
     featuresContainer := v |}.

Definition set_fileInput_clicks (v : nat) (w : World) : World :=
  {| fileInput_clicks := v; alerts := alerts w;
     console_errors := console_errors w; requests := requests w;
     pending := pending w; timeouts := timeouts w |}.

Definition set_alerts (v : list string) (w : World) : World :=
  {| fileInput_clicks := fileInput_clicks w; alerts := v;
     console_errors := console_errors w; requests := requests w;
     pending := pending w; timeouts := timeouts w |}.

Definition set_console_errors (v : list (string * JS.error)) (w : World) : World :=
  {| fileInput_clicks := fileInput_clicks w; alerts := alerts w;
     console_errors := v; requests := requests w; pending := pending w;
     timeouts := timeouts w |}.

Definition set_requests (v : list Request) (w : World) : World :=
  {| fileInput_clicks := fileInput_clicks w; alerts := alerts w;
     console_errors := console_errors w; requests := v;
     pending := pending w; timeouts := timeouts w |}.

Definition set_pending (v : nat) (w : World) : World :=
  {| fileInput_clicks := fileInput_clicks w; alerts := alerts w;
     console_errors := console_errors w; requests := requests w;
     pending := v; timeouts := timeouts w |}.

Definition set_timeouts (v : list Z) (w : World) : World :=
  {| fileInput_clicks := fileInput_clicks w; alerts := alerts w;
     console_errors := console_errors w; requests := requests w;
     pending := pending w; timeouts := v |}.

Definition set_currentFile (v : option File) (st : Page) : Page :=
  {| currentFile := v; csrfToken := csrfToken st;
     uploadForm_action := uploadForm_action st; dom := dom st;
     world := world st |}.

Definition set_dom (v : Dom) (st : Page) : Page :=
  {| currentFile := currentFile st; csrfToken := csrfToken st;
     uploadForm_action := uploadForm_action st; dom := v; world := world st |}.

Definition set_world (v : World) (st : Page) : Page :=
  {| currentFile := currentFile st; csrfToken := csrfToken st;
     uploadForm_action := uploadForm_action st; dom := dom st; world := v |}.

Definition on_dom (f : Dom -> Dom) (st : Page) : Page :=
  set_dom (f (dom st)) st.

Definition on_world (f : World -> World) (st : Page) : Page :=
  set_world (f (world st)) st.

(** [alert(msg)] *)
Definition alert (msg : string) : Page -> Page :=
  on_world (fun w => set_alerts (alerts w ++ [msg]) w).

(** [console.error(label, e)] *)
Definition console_error (label : string) (e : JS.error) : Page -> Page :=
  on_world (fun w => set_console_errors (console_errors w ++ [(label, e)]) w).

(** [fetch(...)]: the request leaves and its exchange is pending. *)
Definition fetch (r : Request) : Page -> Page :=
  on_world (fun w =>
    set_pending (S (pending w)) (set_requests (requests w ++ [r]) w)).

(** [setTimeout(callback, delay)] *)
Definition setTimeout (delay : Z) : Page -> Page :=
  on_world (fun w => set_timeouts (timeouts w ++ [delay]) w).

(** ** Computations that change the page and may throw *)

Definition js (A : Type) : Type := Page -> Page * JS.completion A.

Definition ret {A : Type} (a : A) : js A := fun st => (st, JS.Normal a).

Definition bind {A B : Type} (c : js A) (k : A -> js B) : js B :=
  fun st =>
    match c st with
    | (st', JS.Normal a) => k a st'
    | (st', JS.Throw e) => (st', JS.Throw e)
    end.

(** An evaluation that reads no state. *)
Definition eval {A : Type} (r : JS.completion A) : js A := fun st => (st, r).

(** A statement that cannot throw. *)
Definition exec (f : Page -> Page) : js unit :=
  fun st => (f st, JS.Normal tt).

Declare Scope js_scope.
Delimit Scope js_scope with js.
Notation "x <- c ;; k" := (bind c (fun x => k))
  (at level 61, c at next level, right associativity) : js_scope.
Notation "c ;; k" := (bind c (fun _ => k))
  (at level 61, right associativity) : js_scope.

(** *** Promises

    A promise that has settled is a computation that has ended: fulfilled
    with a value or rejected with an error. *)

(** [p.then(f)] *)
Definition then_ {A B : Type} (p : js A) (f : A -> js B) : js B := bind p f.

(** [p.catch(h)] *)
Definition catch_ {A : Type} (p : js A) (h : JS.error -> js A) : js A :=
  fun st =>
    match p st with
    | (st', JS.Throw e) => h e st'
    | (st', JS.Normal a) => (st', JS.Normal a)
    end.

(** [p.finally(k)]: [k] runs however [p] settled, and the settlement of [p]
    stands unless [k] throws. *)
Definition finally_ {A : Type} (p : js A) (k : js unit) : js A :=
  fun st =>
    let '(st', r) := p st in
    match k st' with
    | (st'', JS.Normal _) => (st'', r)
    | (st'', JS.Throw e) => (st'', JS.Throw e)
    end.

(** ** The script *)

Local Open Scope js_scope.

(** *** Selection *)

Definition handleFileSelection (file : File) (st : Page) : Page :=
  if negb (Str.startsWith (type file) "audio/") then
    alert "Please upload an audio file" st
  else
    let st := set_currentFile (Some file) st in
    let st := on_dom (set_selectedFile_textContent
                        ("Selected file: " ++ name file)) st in
    on_dom (set_analyzeBtn_disabled false) st.

(** The handler of [click] on [browseBtn]. *)
Definition browseBtn_click : Page -> Page :=
  on_world (fun w => set_fileInput_clicks (S (fileInput_clicks w)) w).

(** The handler of [change] on [fileInput]; [files] is [e.target.files]. *)
Definition fileInput_change (files : list File) (st : Page) : Page :=
  match files with
  | file :: _ => handleFileSelection file st
  | [] => st
  end.

Definition dropZone_dragover (st : Page) : Page :=
  let st := on_dom (set_dropZone_background "#e3f2fd") st in
  on_dom (set_dropZone_borderColor "#2196f3") st.

Definition dropZone_dragleave (st : Page) : Page :=
  let st := on_dom (set_dropZone_background "#f8f9fa") st in
  on_dom (set_dropZone_borderColor "#3498db") st.

(** The handler of [drop] on [dropZone]; [files] is
    [e.dataTransfer.files]. *)
Definition dropZone_drop (files : list File) (st : Page) : Page :=
  let st := on_dom (set_dropZone_background "#f8f9fa") st in
  let st := on_dom (set_dropZone_borderColor "#3498db") st in
  match files with
  | file :: _ => handleFileSelection file st
  | [] => st
  end.

(** *** Rendering *)

Definition n0_3 : Number.t := Number.of_decimal 3 1.
Definition n0_6 : Number.t := Number.of_decimal 6 1.
Definition n100 : Number.t := Number.of_Z 100.

(** [score.toFixed(2)]: only a number has the method. *)
Definition call_toFixed (score : JS.value) (digits : Z)
  : JS.completion string :=
  match score with
  | JS.VNum x => JS.Normal (Number.toFixed x digits)
  | JS.VUndefined =>
      JS.Throw (JS.TypeError
        "Cannot read properties of undefined (reading 'toFixed')")
  | JS.VNull =>
      JS.Throw (JS.TypeError
        "Cannot read properties of null (reading 'toFixed')")
  | _ => JS.Throw (JS.TypeError "score.toFixed is not a function")
  end.

(** [x * 100] *)
Definition times100 (v : JS.value) : JS.completion Number.t :=
  JS.bind (JS.ToNumber v) (fun x => JS.Normal (Number.mul x n100)).

(** [x < y] for a number [y] *)
Definition less_than (v : JS.value) (y : Number.t) : JS.completion bool :=
  JS.bind (JS.ToNumber v) (fun x => JS.Normal (Number.ltb x y)).

Definition interpretation (score : JS.value) : JS.completion string :=
  JS.bind (less_than score n0_3) (fun low =>
  if low then JS.Normal "Low Stress"
  else
    JS.bind (less_than score n0_6) (fun moderate =>
    JS.Normal (if moderate then "Moderate Stress" else "High Stress"))).

(** A percentage that [style.width] takes: a number that is not negative.
    The assignment of any other text ([-50%], [NaN%], [Infinity%]) is
    ignored. *)
Definition width_accepts (x : Number.t) : bool :=
  match x with
  | S754_zero _ | S754_finite false _ _ => true
  | _ => false
  end.

(** [scoreFill.style.width = `${x}%`] *)
Definition assign_scoreFill_width (x : Number.t) (d : Dom) : Dom :=
  if width_accepts x
  then set_scoreFill_width (Number.toString x ++ "%") d
  else d.

(** [feature.replace(/_/g, ' ').replace(/\b\w/g, l => l.toUpperCase())] *)
Definition displayName (feature : string) : string :=
  Str.capitalize_words (Str.replace_underscores feature).

(** The template literal assigned to [featureEl.innerHTML]; nothing that
    it interpolates is escaped. *)
Definition feature_markup (display percent width : string) : string :=
  let q := Str.dquote in
  let line (indent : nat) (text : string) :=
    Str.newline ++ Str.spaces indent ++ text in
  line 16%nat ("<div class=" ++ q ++ "feature-name" ++ q ++ ">") ++
  line 20%nat ("<span>" ++ display ++ "</span>") ++
  line 20%nat ("<span>" ++ percent ++ "%</span>") ++
  line 16%nat "</div>" ++
  line 16%nat ("<div class=" ++ q ++ "feature-bar" ++ q ++ ">") ++
  line 20%nat ("<div class=" ++ q ++ "feature-fill" ++ q ++ " style=" ++ q ++
           "width: " ++ width ++ "%" ++ q ++ "></div>") ++
  line 16%nat "</div>" ++
  line 12%nat "".

(** The element built by one turn of the loop over the entries; the
    template evaluates [contribution * 100] twice, and the first throws
    where the contribution has no primitive value. *)
Definition featureEl (entry : string * JS.value) : JS.completion Element :=
  let '(feature, contribution) := entry in
  JS.bind (times100 contribution) (fun percent =>
  JS.bind (times100 contribution) (fun width =>
  JS.Normal
    {| className := "feature";
       innerHTML :=
         feature_markup (displayName feature)
           (Number.toFixed percent 1) (Number.toString width) |})).

Definition appendChild (el : Element) : Dom -> Dom :=
  fun d => set_featuresContainer (featuresContainer d ++ [el]) d.

(** [for (const entry of entries) body(entry)] *)
Fixpoint for_of {A : Type} (entries : list A) (body : A -> js unit)
  : js unit :=
  match entries with
  | [] => ret tt
  | entry :: rest => body entry ;; for_of rest body
  end.

(** One turn of the loop over the entries. *)
Definition append_feature (entry : string * JS.value) : js unit :=
  el <- eval (featureEl entry) ;;
  exec (on_dom (appendChild el)).

Definition updateResults (score features : JS.value) : js unit :=
  text <- eval (call_toFixed score 2) ;;
  exec (on_dom (set_scoreValue_textContent text)) ;;
  width <- eval (times100 score) ;;
  exec (on_dom (assign_scoreFill_width width)) ;;
  label <- eval (interpretation score) ;;
  exec (on_dom (set_scoreInterpretation_textContent label)) ;;
  exec (on_dom (set_featuresContainer [])) ;;
  entries <- eval (JS.entries features) ;;
  for_of entries append_feature ;;
  exec (on_dom (set_resultContainer_display "block")) ;;
  exec (setTimeout 100).

(** *** Submission *)

(** The response of the server: what [response.json()] settles to. *)
Record Response : Type := { json : JS.completion JS.value }.

(** The handler of [click] on [analyzeBtn], up to the call of [fetch]. *)
Definition analyzeBtn_click (st : Page) : Page :=
  match currentFile st with
  | None => st
  | Some file =>
      let st := on_dom (set_loading_display "block") st in
      let st := on_dom (set_resultContainer_display "none") st in
      let st := on_dom (set_analyzeBtn_disabled true) st in
      let formData :=
        [("file", FileValue file);
         ("csrfmiddlewaretoken", TextValue (csrfToken st))] in
      fetch {| url := uploadForm_action st; method := "POST";
               body := formData |} st
  end.

(** [data => { if (data.success) ... else ... }] *)
Definition on_data (data : JS.value) : js unit :=
  success <- eval (JS.get data "success") ;;
  if JS.ToBoolean success then
    score <- eval (JS.get data "score") ;;
    features <- eval (JS.get data "features") ;;
    updateResults score features
  else
    errors <- eval (JS.get data "errors") ;;
    message <- (if JS.ToBoolean errors then ret errors
                else eval (JS.get data "error")) ;;
    text <- eval (JS.ToString message) ;;
    exec (alert ("Error processing file: " ++ text)).

(** [error => { console.error('Error:', error); alert(...) }] *)
Definition on_error (e : JS.error) : js unit :=
  exec (console_error "Error:" e) ;;
  exec (alert "An error occurred while processing the file.").

(** [() => { loading.style.display = 'none'; analyzeBtn.disabled = false }] *)
Definition on_finally : js unit :=
  exec (on_dom (set_loading_display "none")) ;;
  exec (on_dom (set_analyzeBtn_disabled false)).

(** The promise chain of the handler, once [fetch] has settled to [r]. *)
Definition exchange (r : JS.completion Response) : js unit :=
  finally_
    (catch_
       (then_ (then_ (eval r) (fun response => eval (json response)))
              on_data)
       on_error)
    on_finally.

(** *** The page as a machine

    What can happen to the page: the events the script listens to, the
    settlement of a pending exchange and the expiry of a timer. *)
Inductive event : Type :=
| BrowseClick
| FileInputChange (files : list File)
| DragOver
| DragLeave
| Drop (files : list File)
| AnalyzeClick
| Settled (r : JS.completion Response)
| TimerFired.

Definition step (ev : event) (st : Page) : Page :=
  match ev with
  | BrowseClick => browseBtn_click st
  | FileInputChange files => fileInput_change files st
  | DragOver => dropZone_dragover st
  | DragLeave => dropZone_dragleave st
  | Drop files => dropZone_drop files st
  | AnalyzeClick =>
      (* a disabled button dispatches no click *)
      if analyzeBtn_disabled (dom st) then st else analyzeBtn_click st
  | Settled r =>
      match pending (world st) with
      | O => st
      | S n => fst (exchange r (on_world (set_pending n) st))
      end
  | TimerFired =>
      (* the callback assigns to each bar the width it has *)
      on_world (fun w => set_timeouts (tl (timeouts w)) w) st
  end.

Definition run (evs : list event) (st : Page) : Page :=
  fold_left (fun st ev => step ev st) evs st.

(** SubmissionState = InFlight: an exchange has started and has not
    settled. *)
Definition in_flight (st : Page) : bool :=
  negb (Nat.eqb (pending (world st)) 0).

(** ** Sample pages and files *)

Module Sample.

Definition blank : Dom :=
  {| dropZone_background := "#f8f9fa"; dropZone_borderColor := "#3498db";
     selectedFile_textContent := ""; analyzeBtn_disabled := true;
     loading_display := "none"; resultContainer_display := "none";
     scoreValue_textContent := ""; scoreFill_width := "0%";
     scoreInterpretation_textContent := ""; featuresContainer := [] |}.

Definition quiet : World :=
  {| fileInput_clicks := 0; alerts := []; console_errors := [];
     requests := []; pending := 0; timeouts := [] |}.

(** The page when the script has just registered its handlers. *)
Definition loaded : Page :=
  {| currentFile := None; csrfToken := "token";
     uploadForm_action := "/analyze/"; dom := blank; world := quiet |}.

Definition recording : File :=
  {| name := "voice.wav"; type := "audio/wav"; content := "RIFF" |}.

Definition other_recording : File :=
  {| name := "second.mp3"; type := "audio/mpeg"; content := "ID3" |}.

Definition picture : File :=
  {| name := "cat.png"; type := "image/png"; content := "PNG" |}.

Definition num (d k : Z) : JS.value := JS.VNum (Number.of_decimal d k).

Definition respond (data : JS.value) : JS.completion Response :=
  JS.Normal {| json := JS.Normal data |}.

(** [{success: true, score: 0.75, features: {"pitch_variance": 0.4}}] *)
Definition scored : JS.value :=
  JS.VObj [("success", JS.VBool true); ("score", num 75 2);
           ("features", JS.VObj [("pitch_variance", num 4 1)])].

(** [{success: false, error: "bad file"}] *)
Definition refused : JS.value :=
  JS.VObj [("success", JS.VBool false); ("error", JS.VStr "bad file")].

(** A recording was chosen, sent and scored. *)
Definition shown : Page :=
  run [FileInputChange [recording]; AnalyzeClick; Settled (respond scored)]
      loaded.

(** A recording was chosen and sent; the answer is still to come. *)
Definition waiting : Page :=
  run [FileInputChange [recording]; AnalyzeClick] loaded.

(** While that answer is awaited, another recording is chosen. *)
Definition reselected : Page :=
  step (FileInputChange [other_recording]) waiting.

(** Something is dragged over the drop zone of the fresh page. *)
Definition highlighted : Page := step DragOver loaded.

(** [{success: false, errors: "", error: "bad file"}] *)
Definition refused_with_empty_errors : JS.value :=
  JS.VObj [("success", JS.VBool false); ("errors", JS.VStr "");
           ("error", JS.VStr "bad file")].

(** The result is on display and a further submission is answered by
    [data]. *)
Definition resubmitted (data : JS.value) : Page :=
  run [AnalyzeClick; Settled (respond data)] shown.


(** Events that are neither a settlement nor an accepted selection. *)
Definition idle_events : list event :=
  [AnalyzeClick; DragOver; Drop [picture]; AnalyzeClick].

End Sample.

(** ** Predicates of the statements *)

Definition accepts (file : File) : bool :=
  Str.startsWith (type file) "audio/".

(** The states in which a selection event carrying [file] first leaves the
    page: the routine itself, the change event and the drop event. *)
Inductive selects (file : File) (st : Page) : Page -> Prop :=
| selects_direct : selects file st (handleFileSelection file st)
| selects_change files :
    selects file st (step (FileInputChange (file :: files)) st)
| selects_drop files :
    selects file st (step (Drop (file :: files)) st).

(** The events that leave a disabled submit button disabled: all but the
    settling of an exchange and a selection that is accepted. *)
Definition keeps_disabled (ev : event) : bool :=
  match ev with
  | Settled _ => false
  | FileInputChange (file :: _) | Drop (file :: _) => negb (accepts file)
  | _ => true
  end.

(** The response [data] reports a failure: reading [data.success] yields a
    falsy value. *)
Definition reports_failure (data : JS.value) : Prop :=
  exists success,
    JS.get data "success" = JS.Normal success /\
    JS.ToBoolean success = false.

(** [data.k] where reading it does not throw. *)
Definition field (data : JS.value) (k : string) : JS.value :=
  match JS.get data k with
  | JS.Normal v => v
  | JS.Throw _ => JS.VUndefined
  end.

Definition n1 : Number.t := Number.of_Z 1.

(** [0 <= x && x <= 1] *)
Definition in_unit_interval (x : Number.t) : Prop :=
  Number.leb Number.zero x = true /\ Number.leb x n1 = true.

(** The interpretation label once [updateResults(score, features)] has
    run on [st]. *)
Definition label_after (score features : JS.value) (st : Page) : string :=
  scoreInterpretation_textContent
    (dom (fst (updateResults score features st))).

(** A number of the language: a canonical binary64 value. *)
Definition is_double (x : Number.t) : Prop :=
  valid_binary Number.prec Number.emax x = true.

(** The text [i.dd] of the hundredths [n]. *)
Definition two_decimals (n : Z) : string :=
  Number.decimal (n / 100) ++ "." ++
  Number.decimal (n / 10 mod 10) ++ Number.decimal (n mod 10).

(** [n] hundredths is a nearest two-decimal value of [v], the upper one
    of two. *)
Definition nearest_hundredths (v : Q) (n : Z) : Prop :=
  (inject_Z n - (1 # 2) <= 100 * v /\ 100 * v < inject_Z n + (1 # 2))%Q.

(** A letter or a digit: the characters that make up the words of a
    feature key. *)
Definition is_alnum (c : ascii) : bool :=
  Str.is_digit c || Str.is_lower c || Str.is_upper c.

(** What a character of a feature key is displayed as, given the character
    before it: an underscore as a space, the first letter of a word in
    upper case, anything else as it is. *)
Definition displayed_char (before : option ascii) (c : ascii) : ascii :=
  if Ascii.eqb c "_" then " "%char
  else if is_alnum c &&
          negb match before with
               | Some p => is_alnum p
               | None => false
               end
       then Str.toUpperCase c
       else c.

Definition char_before (s : string) (i : nat) : option ascii :=
  match i with
  | O => None
  | S j => String.get j s
  end.



(** The feature elements once [updateResults(score, features)] has run. *)
Definition features_after (score features : JS.value) (st : Page)
  : list Element :=
  featuresContainer (dom (fst (updateResults score features st))).

(** The label that the two comparisons of [updateResults] give the number
    [x]. *)
Definition stress_label (x : Number.t) : string :=
  if Number.ltb x n0_3 then "Low Stress"
  else if Number.ltb x n0_6 then "Moderate Stress"
  else "High Stress".

(** The gauge width after the assignment of [`${x}%`] over the width
    [old]. *)
Definition gauge_width (x : Number.t) (old : string) : string :=
  if width_accepts x then Number.toString x ++ "%" else old.

(** The document [d] once a rendering has written the score text, the
    gauge and the label of the number [x] and the feature elements [els],
    with the result container at [display]. *)
Definition rendered (x : Number.t) (els : list Element) (display : string)
  (d : Dom) : Dom :=
  {| dropZone_background := dropZone_background d;
     dropZone_borderColor := dropZone_borderColor d;
     selectedFile_textContent := selectedFile_textContent d;
     analyzeBtn_disabled := analyzeBtn_disabled d;
     loading_display := loading_display d;
     resultContainer_display := display;
     scoreValue_textContent := Number.toFixed x 2;
     scoreFill_width := gauge_width (Number.mul x n100) (scoreFill_width d);
     scoreInterpretation_textContent := stress_label x;
     featuresContainer := els |}.

(** The contribution of the entry has a number value: converting it does
    not throw. *)
Definition converts (entry : string * JS.value) : Prop :=
  exists n, JS.ToNumber (snd entry) = JS.Normal n.

(** The elements that the loop over [entries] has appended when it ends:
    those of the entries before the first one whose element cannot be
    built. *)
Fixpoint appended (entries : list (string * JS.value)) : list Element :=
  match entries with
  | [] => []
  | entry :: rest =>
      match featureEl entry with
      | JS.Normal el => el :: appended rest
      | JS.Throw _ => []
      end
  end.

(** How the loop over [entries] ends: normally, or with the error of the
    first element that cannot be built. *)
Fixpoint loop_end (entries : list (string * JS.value)) : JS.completion unit :=
  match entries with
  | [] => JS.Normal tt
  | entry :: rest =>
      match featureEl entry with
      | JS.Normal _ => loop_end rest
      | JS.Throw e => JS.Throw e
      end
  end.

(** The display name in the words of the specification: underscores are
    replaced by spaces, and of each word, the words being what the spaces
    separate, the first letter is capitalized. *)
Fixpoint capitalize_after_space (start : bool) (s : string) : string :=
  match s with
  | EmptyString => EmptyString
  | String c r =>
      String (if start then Str.toUpperCase c else c)
             (capitalize_after_space (Ascii.eqb c " ") r)
  end.

Definition humanized (feature : string) : string :=
  capitalize_after_space true (Str.replace_underscores feature).

(** ** Predicates of the further properties *)

(** The page once the handler of [finally] has run on it. *)
Definition cleaned (st : Page) : Page :=
  on_dom (set_analyzeBtn_disabled false)
    (on_dom (set_loading_display "none") st).

(** The page once the handler of [catch] has run on it with [e]. *)
Definition reported (e : JS.error) (st : Page) : Page :=
  alert "An error occurred while processing the file."
    (console_error "Error:" e st).

(** The settlement leads to a complete rendering: the body parses, its
    [success] is truthy, its [score] is a number, its [features] have
    entries and the element of every entry can be built. *)
Definition renders (r : JS.completion Response) : bool :=
  match r with
  | JS.Normal response =>
      match json response with
      | JS.Normal data =>
          match JS.get data "success" with
          | JS.Normal success =>
              JS.ToBoolean success &&
              match field data "score", JS.entries (field data "features") with
              | JS.VNum _, JS.Normal entries =>
                  match loop_end entries with
                  | JS.Normal _ => true
                  | JS.Throw _ => false
                  end
              | _, _ => false
              end
          | JS.Throw _ => false
          end
      | JS.Throw _ => false
      end
  | JS.Throw _ => false
  end.

(** What rendering touches in the document. *)
Definition rendering (d : Dom)
  : string * string * string * list Element * string :=
  (scoreValue_textContent d, scoreFill_width d,
   scoreInterpretation_textContent d, featuresContainer d,
   resultContainer_display d).

(** What selection holds and shows. *)
Definition selection (st : Page) : option File * string :=
  (currentFile st, selectedFile_textContent (dom st)).

(** The request that a click sends for [file] from the page [st]. *)
Definition upload (st : Page) (file : File) : Request :=
  {| url := uploadForm_action st; method := "POST";
     body := [("file", FileValue file);
              ("csrfmiddlewaretoken", TextValue (csrfToken st))] |}.

(** The held file, if any, is an audio file. *)
Definition holds_audio (st : Page) : Prop :=
  forall file, currentFile st = Some file -> accepts file = true.

(** Every request sent so far is an upload of an audio file to the form's
    address with the page's token. *)
Definition uploads_only (st : Page) : Prop :=
  Forall (fun r => exists file, accepts file = true /\ r = upload st file)
         (requests (world st)).

(** The submit button is enabled, or an exchange is pending, only with a
    file held. *)
Definition submit_gated (st : Page) : Prop :=
  (analyzeBtn_disabled (dom st) = false \/ in_flight st = true) ->
  currentFile st <> None.

(** The loading indicator is shown only with an exchange pending. *)
Definition loading_means_pending (st : Page) : Prop :=
  loading_display (dom st) = "block" -> in_flight st = true.

Definition is_click (ev : event) : bool :=
  match ev with
  | AnalyzeClick => true
  | _ => false
  end.

Definition is_drag (ev : event) : bool :=
  match ev with
  | DragOver | DragLeave => true
  | _ => false
  end.

(** The page after a run of drag-over and drag-leave events: that of the
    last of them. *)
Definition after_drags (evs : list event) (st : Page) : Page :=
  match last evs BrowseClick with
  | DragOver => dropZone_dragover st
  | DragLeave => dropZone_dragleave st
  | _ => st
  end.

(** What an exchange has no business with: the selection, the drop zone,
    the form, and the requests sent. *)
Definition outside_exchange (st : Page)
  : option File * string * string * string * string * string
    * list Request * nat * nat :=
  (currentFile st, csrfToken st, uploadForm_action st,
   selectedFile_textContent (dom st), dropZone_background (dom st),
   dropZone_borderColor (dom st), requests (world st), pending (world st),
   fileInput_clicks (world st)).

Module Scenario.

(** [{success: true, score: 0.5}] *)
Definition scored_without_features : JS.value :=
  JS.VObj [("success", JS.VBool true); ("score", Sample.num 5 1)].

(** [{"toString": 1}]: an object whose own [toString] is no function. *)
Definition opaque : JS.value := JS.VObj [("toString", Sample.num 1 0)].

(** [{success: false, errors: {"toString": 1}}] *)
Definition refused_opaquely : JS.value :=
  JS.VObj [("success", JS.VBool false); ("errors", opaque)].

(** [{"jitter": 0.1, "shimmer": {"toString": 1}, "tempo": 0.2}] *)
Definition features_with_opaque : JS.value :=
  JS.VObj [("jitter", Sample.num 1 1); ("shimmer", opaque);
           ("tempo", Sample.num 2 1)].

(** [{success: true, score: 0.5, features: {"jitter": 0.1, "shimmer":
    {"toString": 1}, "tempo": 0.2}}] *)
Definition scored_with_opaque : JS.value :=
  JS.VObj [("success", JS.VBool true); ("score", Sample.num 5 1);
           ("features", features_with_opaque)].

End Scenario.

(** ** Selection *)

Lemma handleFileSelection_rejected file st :
  accepts file = false ->
  handleFileSelection file st = alert "Please upload an audio file" st.
Proof.
  unfold accepts, handleFileSelection. intros ->. reflexivity.
Qed.

Lemma handleFileSelection_accepted file st :
  accepts file = true ->
  handleFileSelection file st =
  {| currentFile := Some file;
     csrfToken := csrfToken st;
     uploadForm_action := uploadForm_action st;
     dom := set_analyzeBtn_disabled false
              (set_selectedFile_textContent ("Selected file: " ++ name file)
                 (dom st));
     world := world st |}.
Proof.
  unfold accepts, handleFileSelection. intros ->. reflexivity.
Qed.

(** C5. A candidate file whose declared media type does not start with
    "audio/" is rejected with an alert, and the held file, the
    selected-file label and the enablement of the submit button are what
    they were before; this holds for the routine and for both events that
    lead to it. *)
Theorem rejected_selection_keeps_selection_state file st st' :
  Str.startsWith (type file) "audio/" = false ->
  selects file st st' ->
  currentFile st' = currentFile st /\
  selectedFile_textContent (dom st') = selectedFile_textContent (dom st) /\
  analyzeBtn_disabled (dom st') = analyzeBtn_disabled (dom st) /\
  alerts (world st') =
    (alerts (world st) ++ ["Please upload an audio file"])%list.
Proof.
  intros Hty Hsel.
  destruct Hsel; cbn [step fileInput_change dropZone_drop];
    rewrite handleFileSelection_rejected by exact Hty;
    repeat split; reflexivity.
Qed.

Lemma rejected_selection_keeps_selection_state_witness :
  Str.startsWith (type Sample.picture) "audio/" = false /\
  currentFile (step (Drop [Sample.picture]) Sample.shown)
    = Some Sample.recording /\
  alerts (world (step (Drop [Sample.picture]) Sample.shown))
    = ["Please upload an audio file"].
Proof.
  split; [reflexivity|].
  destruct (rejected_selection_keeps_selection_state
              Sample.picture Sample.shown
              (step (Drop [Sample.picture]) Sample.shown)
              eq_refl (selects_drop _ _ [])) as (Hfile & _ & _ & Halerts).
  split; [rewrite Hfile | rewrite Halerts]; reflexivity.
Defined.

(** C8. An accepted file enables the submit button whatever the state,
    also while an exchange is in flight and the button is disabled. *)
Theorem accepted_selection_enables_submit file st st' :
  Str.startsWith (type file) "audio/" = true ->
  selects file st st' ->
  analyzeBtn_disabled (dom st') = false.
Proof.
  intros Hty Hsel.
  destruct Hsel; cbn [step fileInput_change dropZone_drop];
    rewrite handleFileSelection_accepted by exact Hty; reflexivity.
Qed.

Lemma accepted_selection_enables_submit_witness :
  in_flight Sample.waiting = true /\
  analyzeBtn_disabled (dom Sample.waiting) = true /\
  analyzeBtn_disabled
    (dom (step (FileInputChange [Sample.other_recording]) Sample.waiting))
  = false.
Proof.
  split; [reflexivity|]. split; [reflexivity|].
  apply (accepted_selection_enables_submit Sample.other_recording
           Sample.waiting); [reflexivity | apply selects_change].
Defined.

(** C10. Selection leaves rendering and progress alone: whether the file is
    accepted or rejected, the score text, the gauge width, the
    interpretation label, the feature elements, the display of the result
    container and the display of the loading indicator are unchanged; an
    accepted call changes the held file, the label text and the disabled
    flag of the submit button and nothing else, a rejected call adds its
    alert and nothing else. *)
Theorem selection_frame file st :
  let st' := handleFileSelection file st in
  (scoreValue_textContent (dom st') = scoreValue_textContent (dom st) /\
   scoreFill_width (dom st') = scoreFill_width (dom st) /\
   scoreInterpretation_textContent (dom st')
     = scoreInterpretation_textContent (dom st) /\
   featuresContainer (dom st') = featuresContainer (dom st) /\
   resultContainer_display (dom st') = resultContainer_display (dom st) /\
   loading_display (dom st') = loading_display (dom st)) /\
  st' =
    if Str.startsWith (type file) "audio/" then
      {| currentFile := Some file;
         csrfToken := csrfToken st;
         uploadForm_action := uploadForm_action st;
         dom :=
           {| dropZone_background := dropZone_background (dom st);
              dropZone_borderColor := dropZone_borderColor (dom st);
              selectedFile_textContent := "Selected file: " ++ name file;
              analyzeBtn_disabled := false;
              loading_display := loading_display (dom st);
              resultContainer_display := resultContainer_display (dom st);
              scoreValue_textContent := scoreValue_textContent (dom st);
              scoreFill_width := scoreFill_width (dom st);
              scoreInterpretation_textContent :=
                scoreInterpretation_textContent (dom st);
              featuresContainer := featuresContainer (dom st) |};
         world := world st |}
    else
      {| currentFile := currentFile st;
         csrfToken := csrfToken st;
         uploadForm_action := uploadForm_action st;
         dom := dom st;
         world :=
           {| fileInput_clicks := fileInput_clicks (world st);
              alerts := alerts (world st) ++ ["Please upload an audio file"];
              console_errors := console_errors (world st);
              requests := requests (world st);
              pending := pending (world st);
              timeouts := timeouts (world st) |} |}.
Proof.
  unfold handleFileSelection.
  destruct (Str.startsWith (type file) "audio/"); cbn;
    split; try reflexivity; repeat split.
Qed.

(** C9, as the code has it. A change event without a file changes nothing.
    A drop event without a file puts the drop zone back to its resting
    colours, as leaving the zone does, and changes nothing else: the
    selection routine does not run, no alert is shown, and the held file,
    the world and every other property of the document are unchanged. *)
Theorem empty_file_list_events st :
  step (FileInputChange []) st = st /\
  step (Drop []) st =
    {| currentFile := currentFile st;
       csrfToken := csrfToken st;
       uploadForm_action := uploadForm_action st;
       dom :=
         {| dropZone_background := "#f8f9fa";
            dropZone_borderColor := "#3498db";
            selectedFile_textContent := selectedFile_textContent (dom st);
            analyzeBtn_disabled := analyzeBtn_disabled (dom st);
            loading_display := loading_display (dom st);
            resultContainer_display := resultContainer_display (dom st);
            scoreValue_textContent := scoreValue_textContent (dom st);
            scoreFill_width := scoreFill_width (dom st);
            scoreInterpretation_textContent :=
              scoreInterpretation_textContent (dom st);
            featuresContainer := featuresContainer (dom st) |};
       world := world st |}.
Proof. split; reflexivity. Qed.

(** C9 as stated fails on the drop path: a drop without files over a
    highlighted drop zone changes the colours of the zone. *)
Lemma empty_drop_changes_the_page :
  dropZone_background (dom Sample.highlighted) = "#e3f2fd" /\
  dropZone_background (dom (step (Drop []) Sample.highlighted)) = "#f8f9fa" /\
  step (Drop []) Sample.highlighted <> Sample.highlighted.
Proof.
  split; [reflexivity|]. split; [reflexivity|].
  intros Heq. apply (f_equal (fun p => dropZone_background (dom p))) in Heq.
  discriminate Heq.
Qed.

(** ** Submission *)

Lemma step_click_disabled st :
  analyzeBtn_disabled (dom st) = true -> step AnalyzeClick st = st.
Proof. cbn [step]. intros ->. reflexivity. Qed.

Lemma step_click_no_file st :
  currentFile st = None -> step AnalyzeClick st = st.
Proof.
  cbn [step]. unfold analyzeBtn_click. intros ->.
  destruct (analyzeBtn_disabled (dom st)); reflexivity.
Qed.

Lemma step_keeps_disabled ev st :
  keeps_disabled ev = true ->
  analyzeBtn_disabled (dom st) = true ->
  analyzeBtn_disabled (dom (step ev st)) = true /\
  requests (world (step ev st)) = requests (world st).
Proof.
  intros Hev Hdis.
  destruct ev as [ | [|file files] | | | [|file files] | | r | ];
    cbn in Hev; try discriminate;
    try apply negb_true_iff in Hev;
    cbn [step fileInput_change dropZone_drop];
    try rewrite handleFileSelection_rejected by exact Hev;
    try rewrite Hdis;
    (split; [first [exact Hdis | reflexivity] | reflexivity]).
Qed.

Lemma run_keeps_disabled evs : forall st,
  forallb keeps_disabled evs = true ->
  analyzeBtn_disabled (dom st) = true ->
  analyzeBtn_disabled (dom (run evs st)) = true /\
  requests (world (run evs st)) = requests (world st).
Proof.
  induction evs as [|ev evs IH]; intros st Hevs Hdis.
  - split; [exact Hdis | reflexivity].
  - cbn in Hevs. apply andb_true_iff in Hevs as [Hev Hevs].
    destruct (step_keeps_disabled ev st Hev Hdis) as [Hdis' Hreq].
    destruct (IH (step ev st) Hevs Hdis') as [Hdis'' Hreq'].
    cbn [run fold_left]. fold (run evs (step ev st)).
    split; [exact Hdis'' | congruence].
Qed.

(** C1, as the code has it. A click on the submit button is a no-op when
    the button is disabled or no file is held: no request leaves and
    nothing changes. A click that does submit disables the button, and the
    button then stays disabled, so that further clicks are no-ops and no
    other request leaves, through every run of events that holds neither
    the settling of an exchange nor an accepted selection. *)
Theorem disabled_submit_is_noop :
  (forall st,
     analyzeBtn_disabled (dom st) = true \/ currentFile st = None ->
     step AnalyzeClick st = st) /\
  (forall st file,
     analyzeBtn_disabled (dom st) = false -> currentFile st = Some file ->
     let st' := step AnalyzeClick st in
     analyzeBtn_disabled (dom st') = true /\ in_flight st' = true /\
     requests (world st') =
       (requests (world st) ++
        [{| url := uploadForm_action st; method := "POST";
            body := [("file", FileValue file);
                     ("csrfmiddlewaretoken", TextValue (csrfToken st))] |}])
       %list) /\
  (forall st evs,
     analyzeBtn_disabled (dom st) = true ->
     forallb keeps_disabled evs = true ->
     let st' := run evs st in
     analyzeBtn_disabled (dom st') = true /\
     requests (world st') = requests (world st) /\
     step AnalyzeClick st' = st').
Proof.
  split; [|split].
  - intros st [Hdis | Hfile];
      [apply step_click_disabled | apply step_click_no_file]; assumption.
  - intros st file Hdis Hfile. cbn [step]. rewrite Hdis.
    unfold analyzeBtn_click. rewrite Hfile. cbv zeta.
    repeat split.
  - intros st evs Hdis Hevs.
    destruct (run_keeps_disabled evs st Hevs Hdis) as [Hdis' Hreq].
    cbv zeta. repeat split; try assumption.
    apply step_click_disabled, Hdis'.
Qed.

Lemma disabled_submit_is_noop_witness :
  analyzeBtn_disabled (dom Sample.waiting) = true /\
  forallb keeps_disabled Sample.idle_events = true /\
  requests (world (run Sample.idle_events Sample.waiting))
    = requests (world Sample.waiting) /\
  step AnalyzeClick (run Sample.idle_events Sample.waiting)
    = run Sample.idle_events Sample.waiting.
Proof.
  assert (Hdis : analyzeBtn_disabled (dom Sample.waiting) = true)
    by (vm_compute; reflexivity).
  assert (Hevs : forallb keeps_disabled Sample.idle_events = true)
    by (vm_compute; reflexivity).
  split; [exact Hdis|]. split; [exact Hevs|].
  destruct disabled_submit_is_noop as (_ & _ & Hrun).
  destruct (Hrun Sample.waiting Sample.idle_events Hdis Hevs)
    as (_ & Hreq & Hnoop).
  split; [exact Hreq | exact Hnoop].
Defined.

(** C1 as stated fails: with an exchange in flight, choosing another
    recording enables the button again, and the click that follows sends a
    second request. *)
Lemma second_request_while_in_flight :
  in_flight Sample.reselected = true /\
  List.length (requests (world Sample.reselected)) = 1%nat /\
  List.length (requests (world (step AnalyzeClick Sample.reselected)))
    = 2%nat /\
  step AnalyzeClick Sample.reselected <> Sample.reselected.
Proof.
  split; [reflexivity|]. split; [reflexivity|]. split; [reflexivity|].
  intros Heq.
  apply (f_equal (fun p => List.length (requests (world p)))) in Heq.
  discriminate Heq.
Qed.

(** Whatever the first part of the chain does, the handlers of [catch] and
    [finally] end it fulfilled, with the cleanup applied last. *)
Lemma finally_catch_cleanup (p : js unit) st :
  exists st1,
    finally_ (catch_ p on_error) on_finally st =
    (on_dom (set_analyzeBtn_disabled false)
       (on_dom (set_loading_display "none") st1), JS.Normal tt).
Proof.
  unfold finally_, catch_.
  destruct (p st) as [st1 [[]|e]]; eexists; reflexivity.
Qed.

(** C3. However the exchange ends (the request fails, the body does not
    parse, the body parses to any value at all, rendering throws), the
    promise chain ends fulfilled, so that no error leaves it, and in the
    state it leaves the loading indicator is hidden and the submit button
    is enabled. *)
Theorem cleanup_always_runs (r : JS.completion Response) (st : Page) :
  exists st',
    exchange r st = (st', JS.Normal tt) /\
    loading_display (dom st') = "none" /\
    analyzeBtn_disabled (dom st') = false.
Proof.
  unfold exchange.
  destruct (finally_catch_cleanup
              (then_ (then_ (eval r) (fun response => eval (json response)))
                     on_data) st) as [st1 ->].
  eexists. split; [reflexivity|]. split; reflexivity.
Qed.

(** Reading a property of a value throws for every name or for none. *)
Lemma get_field data k v k' :
  JS.get data k = JS.Normal v -> JS.get data k' = JS.Normal (field data k').
Proof.
  unfold field. destruct data; cbn; intros H; try discriminate H; reflexivity.
Qed.

(** Induction on values, with the items of an array. *)
Lemma value_items_ind (P : JS.value -> Prop) :
  P JS.VUndefined -> P JS.VNull -> (forall b, P (JS.VBool b)) ->
  (forall x, P (JS.VNum x)) -> (forall s, P (JS.VStr s)) ->
  (forall items, Forall P items -> P (JS.VArr items)) ->
  (forall props, P (JS.VObj props)) ->
  forall v, P v.
Proof.
  intros Hundefined Hnull Hbool Hnum Hstr Harr Hobj.
  fix IH 1.
  intros [ | | b | x | s | items | props ];
    [ exact Hundefined | exact Hnull | apply Hbool | apply Hnum | apply Hstr
    | | apply Hobj ].
  apply Harr. induction items as [|v r IHr]; constructor;
    [apply IH | exact IHr].
Qed.

(** The only error of a conversion to a string is that of an object, met
    at any depth of arrays, whose own [toString] is no function. *)
Lemma ToString_throws v : forall e,
  JS.ToString v = JS.Throw e ->
  e = JS.TypeError "Cannot convert object to primitive value".
Proof.
  induction v as [ | | b | x | s | items IHitems | props ]
    using value_items_ind; intros e; cbn [JS.ToString]; try discriminate.
  - revert e. induction IHitems as [|v r IHv _ IHr]; intros e;
      [discriminate|].
    assert (Hhead : forall e',
              match v with
              | JS.VUndefined | JS.VNull => JS.Normal ""
              | _ => JS.ToString v
              end = JS.Throw e' ->
              e' = JS.TypeError "Cannot convert object to primitive value").
    { intros e'. destruct v; try discriminate; apply IHv. }
    destruct r as [|v' r']; [exact (Hhead e)|].
    destruct (match v with
              | JS.VUndefined | JS.VNull => JS.Normal ""
              | _ => JS.ToString v
              end) as [first | e'].
    + cbn [JS.bind]. intros H. apply IHr. revert H.
      match goal with
      | |- JS.bind ?c _ = _ -> _ => destruct c as [rest | e'']
      end; cbn [JS.bind]; [discriminate | exact (fun H => H)].
    + cbn [JS.bind]. intros H. injection H as <-. apply Hhead. reflexivity.
  - unfold JS.object_to_primitive.
    destruct (JS.has_own "toString" props); [|discriminate].
    intros H. injection H as <-. reflexivity.
Qed.

(** The handler of the data on a report of failure: one alert with the
    message when the message has a string form, and the error of the
    conversion otherwise. *)
Lemma on_data_failure data success st :
  JS.get data "success" = JS.Normal success ->
  JS.ToBoolean success = false ->
  on_data data st =
  match JS.ToString (JS.or (field data "errors") (field data "error")) with
  | JS.Normal text =>
      (alert ("Error processing file: " ++ text) st, JS.Normal tt)
  | JS.Throw e => (st, JS.Throw e)
  end.
Proof.
  intros Hget Hfalsy. unfold on_data, bind, eval.
  rewrite Hget, Hfalsy.
  rewrite (get_field data "success" success "errors" Hget).
  unfold JS.or.
  destruct (JS.ToBoolean (field data "errors")).
  - cbn [ret].
    destruct (JS.ToString (field data "errors")); reflexivity.
  - cbn [ret]. rewrite (get_field data "success" success "error" Hget).
    destruct (JS.ToString (field data "error")); reflexivity.
Qed.

(** The chain on a body that parses to a report of failure: the alert of
    the message, or the report of the error of its conversion, and the
    cleanup. *)
Lemma exchange_failure data st :
  reports_failure data ->
  exchange (JS.Normal {| json := JS.Normal data |}) st =
  match JS.ToString (JS.or (field data "errors") (field data "error")) with
  | JS.Normal text =>
      (cleaned (alert ("Error processing file: " ++ text) st), JS.Normal tt)
  | JS.Throw e => (cleaned (reported e st), JS.Normal tt)
  end.
Proof.
  intros (success & Hget & Hfalsy).
  unfold exchange, finally_, catch_, then_.
  unfold bind at 1 2. unfold eval at 1 2. cbn [json].
  rewrite (on_data_failure data success st Hget Hfalsy).
  destruct (JS.ToString (JS.or (field data "errors") (field data "error")));
    reflexivity.
Qed.

(** C2, as the code has it. A submission whose body parses to a value with
    a falsy [success] leaves the score text, the gauge width, the
    interpretation label and the feature elements as they were before the
    click, while the result container is hidden, as the click left it. The
    message is [errors] when that is truthy and [error] otherwise. When
    the message has a string form, one alert is added, "Error processing
    file: " followed by that form, and nothing is logged. When it has
    none, the message being an object with a [toString] property of its
    own or an array that holds one, the concatenation throws a
    [TypeError]: the error is logged and the generic alert is added
    instead. Either way the loading indicator is hidden and the submit
    button is enabled. *)
Theorem server_failure_keeps_rendering st file data :
  currentFile st = Some file ->
  analyzeBtn_disabled (dom st) = false ->
  reports_failure data ->
  let st' :=
    run [AnalyzeClick; Settled (JS.Normal {| json := JS.Normal data |})] st in
  (scoreValue_textContent (dom st') = scoreValue_textContent (dom st) /\
   scoreFill_width (dom st') = scoreFill_width (dom st) /\
   scoreInterpretation_textContent (dom st')
     = scoreInterpretation_textContent (dom st) /\
   featuresContainer (dom st') = featuresContainer (dom st)) /\
  resultContainer_display (dom st') = "none" /\
  match JS.ToString (JS.or (field data "errors") (field data "error")) with
  | JS.Normal text =>
      alerts (world st') =
        (alerts (world st) ++ [("Error processing file: " ++ text)%string])
        %list /\
      console_errors (world st') = console_errors (world st)
  | JS.Throw e =>
      JS.name e = "TypeError" /\
      alerts (world st') =
        (alerts (world st) ++ ["An error occurred while processing the file."])
        %list /\
      console_errors (world st') =
        (console_errors (world st) ++ [("Error:", e)])%list
  end /\
  loading_display (dom st') = "none" /\
  analyzeBtn_disabled (dom st') = false.
Proof.
  intros Hfile Hdis Hfail.
  cbn [run fold_left step]. rewrite Hdis.
  unfold analyzeBtn_click. rewrite Hfile. cbv zeta.
  cbn [fetch on_world world set_world set_pending pending].
  rewrite exchange_failure by exact Hfail.
  destruct (JS.ToString (JS.or (field data "errors") (field data "error")))
    as [text | e] eqn:Hmessage.
  - cbn. repeat split.
  - rewrite (ToString_throws _ _ Hmessage). cbn. repeat split.
Qed.

Lemma server_failure_keeps_rendering_witness :
  currentFile Sample.shown = Some Sample.recording /\
  analyzeBtn_disabled (dom Sample.shown) = false /\
  reports_failure Sample.refused /\
  scoreValue_textContent
    (dom (run [AnalyzeClick; Settled (Sample.respond Sample.refused)]
            Sample.shown)) = "0.75" /\
  alerts
    (world (run [AnalyzeClick; Settled (Sample.respond Sample.refused)]
              Sample.shown)) = ["Error processing file: bad file"].
Proof.
  assert (Hfail : reports_failure Sample.refused).
  { exists (JS.VBool false). split; reflexivity. }
  split; [reflexivity|]. split; [reflexivity|]. split; [exact Hfail|].
  destruct (server_failure_keeps_rendering Sample.shown Sample.recording
              Sample.refused eq_refl eq_refl Hfail)
    as ((Hscore & _) & _ & Hmessage & _).
  change (JS.ToString
            (JS.or (field Sample.refused "errors")
                   (field Sample.refused "error")))
    with (JS.Normal (A:=string) "bad file") in Hmessage.
  destruct Hmessage as [Halerts _].
  unfold Sample.respond.
  split; [rewrite Hscore | rewrite Halerts]; reflexivity.
Defined.

(** C2 as stated fails twice. The result that was displayed is hidden by
    the click and stays hidden after the failure, so its visibility is not
    what it was; and an [errors] field that is present but empty yields
    the message of [error]. *)
Lemma failed_submission_hides_result :
  (resultContainer_display (dom Sample.shown) = "block" /\
   resultContainer_display (dom (Sample.resubmitted Sample.refused))
     = "none") /\
  alerts (world (Sample.resubmitted Sample.refused_with_empty_errors))
    = ["Error processing file: bad file"].
Proof. split; [split|]; reflexivity. Qed.

(** A message without a string form: the concatenation throws, so the
    failure is reported by the handler of [catch]. *)
Example opaque_errors_are_reported :
  JS.ToString Scenario.opaque
    = JS.Throw (JS.TypeError "Cannot convert object to primitive value") /\
  JS.ToString (JS.VArr [JS.VNull; JS.VArr [Scenario.opaque]])
    = JS.Throw (JS.TypeError "Cannot convert object to primitive value") /\
  JS.ToString (JS.VArr [Sample.num 1 0; JS.VNull; JS.VArr [JS.VObj []]])
    = JS.Normal "1,,[object Object]" /\
  alerts (world (Sample.resubmitted Scenario.refused_opaquely))
    = ["An error occurred while processing the file."] /\
  console_errors (world (Sample.resubmitted Scenario.refused_opaquely))
    = [("Error:",
        JS.TypeError "Cannot convert object to primitive value")].
Proof. repeat split; vm_compute; reflexivity. Qed.

(** ** Rendering *)

(** Checks of the number model against what an engine prints. *)
Example toString_products :
  Number.toString (Number.mul (Number.of_decimal 75 2) n100) = "75" /\
  Number.toString (Number.mul (Number.of_decimal 29 2) n100)
    = "28.999999999999996" /\
  Number.toString (Number.mul (Number.of_decimal 7 2) n100)
    = "7.000000000000001" /\
  Number.toString (Number.of_ratio (10 ^ 21) 1) = "1e+21" /\
  Number.toString (Number.of_ratio 1 (10 ^ 7)) = "1e-7".
Proof. repeat split; vm_compute; reflexivity. Qed.

Example toFixed_roundings :
  Number.toFixed (Number.of_decimal 1005 3) 2 = "1.00" /\
  Number.toFixed (Number.of_decimal 5 1) 0 = "1" /\
  Number.toFixed (Number.of_decimal 25 1) 0 = "3" /\
  Number.toFixed (SFopp (Number.of_decimal 1 3)) 2 = "-0.00" /\
  Number.toFixed Number.NaN 2 = "NaN".
Proof. repeat split; vm_compute; reflexivity. Qed.

Example StringToNumber_readings :
  JS.StringToNumber " 12 " = Number.of_Z 12 /\
  JS.StringToNumber "0x1F" = Number.of_Z 31 /\
  JS.StringToNumber ".5e1" = Number.of_Z 5 /\
  JS.StringToNumber "" = Number.zero /\
  JS.StringToNumber "12px" = Number.NaN.
Proof. repeat split; vm_compute; reflexivity. Qed.

Lemma n0_3_repr : n0_3 = S754_finite false 5404319552844595 (-54).
Proof. vm_compute. reflexivity. Qed.

Lemma n0_6_repr : n0_6 = S754_finite false 5404319552844595 (-53).
Proof. vm_compute. reflexivity. Qed.

Lemma n1_repr : n1 = S754_finite false 4503599627370496 (-52).
Proof. vm_compute. reflexivity. Qed.

(** The loop over the entries appends the elements of the entries before
    the first whose element cannot be built, and ends with the error of
    that one. *)
Lemma for_of_entries entries : forall st,
  for_of entries append_feature st =
  (on_dom (fun d =>
     set_featuresContainer (featuresContainer d ++ appended entries)%list d)
     st,
   loop_end entries).
Proof.
  induction entries as [|entry entries IH]; intros st;
    cbn [for_of appended loop_end].
  - unfold ret, on_dom, set_dom, set_featuresContainer.
    rewrite app_nil_r. destruct st as [? ? ? [] ?]; reflexivity.
  - unfold bind at 1. unfold append_feature at 1. unfold bind, eval, exec.
    destruct (featureEl entry) as [el | e].
    + rewrite IH. unfold on_dom, set_dom, appendChild, set_featuresContainer.
      cbn [dom featuresContainer]. rewrite <- app_assoc. reflexivity.
    + unfold on_dom, set_dom, set_featuresContainer.
      rewrite app_nil_r. destruct st as [? ? ? [] ?]; reflexivity.
Qed.

Lemma interpretation_number x :
  interpretation (JS.VNum x) = JS.Normal (stress_label x).
Proof.
  unfold interpretation, less_than, stress_label.
  cbn [JS.ToNumber JS.bind].
  destruct (Number.ltb x n0_3); reflexivity.
Qed.

(** The rendering of a number: the score text, the gauge and the label
    are written and the feature elements removed before anything else can
    throw; then come the elements of the entries, and the result container
    and the timer only when the loop has ended normally. *)
Lemma updateResults_number x features st :
  updateResults (JS.VNum x) features st =
  match JS.entries features with
  | JS.Throw e =>
      (set_dom (rendered x [] (resultContainer_display (dom st)) (dom st)) st,
       JS.Throw e)
  | JS.Normal entries =>
      match loop_end entries with
      | JS.Throw e =>
          (set_dom (rendered x (appended entries)
                      (resultContainer_display (dom st)) (dom st)) st,
           JS.Throw e)
      | JS.Normal _ =>
          ({| currentFile := currentFile st;
              csrfToken := csrfToken st;
              uploadForm_action := uploadForm_action st;
              dom := rendered x (appended entries) "block" (dom st);
              world :=
                set_timeouts (timeouts (world st) ++ [100])%list (world st) |},
           JS.Normal tt)
      end
  end.
Proof.
  unfold updateResults, bind, eval, exec.
  cbn [call_toFixed times100 JS.ToNumber JS.bind].
  rewrite interpretation_number.
  unfold rendered, gauge_width, assign_scoreFill_width.
  destruct (JS.entries features) as [entries | e].
  - rewrite for_of_entries.
    destruct (loop_end entries) as [[] | e];
      destruct (width_accepts (Number.mul x n100)); reflexivity.
  - destruct (width_accepts (Number.mul x n100)); reflexivity.
Qed.

(** A score that is not a number stops the rendering before it writes. *)
Lemma updateResults_not_a_number score features st :
  (forall x, score <> JS.VNum x) ->
  exists e, updateResults score features st = (st, JS.Throw e).
Proof.
  intros Hscore. unfold updateResults, bind, eval.
  destruct score; cbn; try (eexists; reflexivity).
  exfalso. eapply Hscore. reflexivity.
Qed.

(** The label is assigned before anything that can throw once the score is
    known to be a number. *)
Lemma label_after_number x features st :
  label_after (JS.VNum x) features st = stress_label x.
Proof.
  unfold label_after. rewrite updateResults_number.
  destruct (JS.entries features) as [entries | e];
    [destruct (loop_end entries) as [[] | e]|]; reflexivity.
Qed.

(** An entry whose contribution has a number value gets its element. *)
Lemma featureEl_converts key c n :
  JS.ToNumber c = JS.Normal n ->
  featureEl (key, c) =
  JS.Normal
    {| className := "feature";
       innerHTML :=
         feature_markup (displayName key)
           (Number.toFixed (Number.mul n n100) 1)
           (Number.toString (Number.mul n n100)) |}.
Proof.
  intros Hn. unfold featureEl, times100. rewrite Hn. reflexivity.
Qed.

Lemma featureEl_throws key c e :
  JS.ToNumber c = JS.Throw e -> featureEl (key, c) = JS.Throw e.
Proof.
  intros Hn. unfold featureEl, times100. rewrite Hn. reflexivity.
Qed.

(** The elements appended are those of a first part of the entries: of
    all of them when the loop ends normally, which it does when every
    contribution has a number value. *)
Lemma appended_prefix entries :
  exists done rest,
    entries = (done ++ rest)%list /\
    Forall2 (fun kv el => featureEl kv = JS.Normal el) done (appended entries) /\
    (loop_end entries = JS.Normal tt -> rest = []) /\
    (Forall converts entries -> loop_end entries = JS.Normal tt).
Proof.
  induction entries as [|entry entries (done & rest & Hsplit & Hels & Hend & Hall)];
    cbn [appended loop_end].
  - exists [], []. repeat split; constructor.
  - destruct (featureEl entry) as [el | e] eqn:Hel.
    + exists (entry :: done), rest. rewrite Hsplit at 1.
      split; [reflexivity|]. split; [constructor; assumption|].
      split; [exact Hend|].
      intros Hconv. apply Hall. inversion Hconv; assumption.
    + exists [], (entry :: entries).
      split; [reflexivity|]. split; [constructor|].
      split; [discriminate|].
      intros Hconv. inversion Hconv as [|? ? [n Hn] _]; subst.
      destruct entry as [key c]. cbn [snd] in Hn.
      rewrite (featureEl_converts key c n Hn) in Hel. discriminate Hel.
Qed.

Lemma loop_completes entries :
  Forall converts entries ->
  loop_end entries = JS.Normal tt /\
  Forall2 (fun kv el => featureEl kv = JS.Normal el) entries (appended entries).
Proof.
  intros Hconv.
  destruct (appended_prefix entries) as (done & rest & Hsplit & Hels & Hend & Hall).
  specialize (Hall Hconv). specialize (Hend Hall). subst rest.
  rewrite app_nil_r in Hsplit. subst done. split; assumption.
Qed.

(** The comparison of two positive finite numbers: by exponent, then by
    mantissa. *)
Lemma SFcompare_positive m e m' e' :
  SFcompare (S754_finite false m e) (S754_finite false m' e') =
  Some match Z.compare e e' with
       | Lt => Lt
       | Gt => Gt
       | Eq => Pos.compare m m'
       end.
Proof. reflexivity. Qed.

Lemma ltb_positive m e m' e' :
  Number.ltb (S754_finite false m e) (S754_finite false m' e') = true <->
  e < e' \/ (e = e' /\ (m < m')%positive).
Proof.
  unfold Number.ltb, SFltb. rewrite SFcompare_positive.
  destruct (Z.compare_spec e e') as [He | He | He].
  - destruct (Pos.compare_spec m m') as [Hm | Hm | Hm]; split;
      try discriminate; try reflexivity; auto; intros [Hlt | [_ Hlt]];
      try lia.
  - split; auto.
  - split; [discriminate | lia].
Qed.

(** Two numbers that compare, compare the other way round as well. *)
Lemma SFcompare_antisym x y :
  SFcompare y x = option_map CompOpp (SFcompare x y).
Proof.
  destruct x as [[|] | [|] | | [|] m e], y as [[|] | [|] | | [|] m' e'];
    try reflexivity; cbn;
    rewrite (Z.compare_antisym e e');
    destruct (e ?= e'); cbn; try reflexivity;
    change (Pos.compare_cont Eq m' m) with (Pos.compare m' m);
    change (Pos.compare_cont Eq m m') with (Pos.compare m m');
    rewrite (Pos.compare_antisym m m');
    destruct (Pos.compare m m'); reflexivity.
Qed.

Lemma leb_flip x y :
  SFcompare x y <> None -> Number.leb y x = negb (Number.ltb x y).
Proof.
  unfold Number.leb, Number.ltb, SFleb, SFltb.
  rewrite (SFcompare_antisym x y).
  destruct (SFcompare x y) as [[| |]|]; cbn; congruence.
Qed.

Lemma below_0_3_below_0_6 x :
  Number.ltb x n0_3 = true -> Number.ltb x n0_6 = true.
Proof.
  rewrite n0_3_repr, n0_6_repr.
  destruct x as [[|] | [|] | | [|] m e]; try (intros H; exact H);
    try reflexivity.
  rewrite !ltb_positive. intros [He | [He _]]; left; lia.
Qed.

Lemma in_unit_interval_compares x y :
  in_unit_interval x -> y <> S754_nan -> SFcompare x y <> None.
Proof.
  intros [H0 _] Hy.
  destruct x as [[|] | [|] | | [|] m e]; try discriminate H0;
    destruct y as [[|] | [|] | | [|] m' e']; try discriminate;
    congruence.
Qed.

Lemma interpretation_cases x :
  in_unit_interval x ->
  (Number.ltb x n0_3 = true /\ stress_label x = "Low Stress" /\
   Number.leb n0_3 x = false /\ Number.leb n0_6 x = false) \/
  (Number.ltb x n0_3 = false /\ Number.ltb x n0_6 = true /\
   stress_label x = "Moderate Stress" /\
   Number.leb n0_3 x = true /\ Number.leb n0_6 x = false) \/
  (Number.ltb x n0_3 = false /\ Number.ltb x n0_6 = false /\
   stress_label x = "High Stress" /\
   Number.leb n0_3 x = true /\ Number.leb n0_6 x = true).
Proof.
  intros Hx.
  assert (H3 : Number.leb n0_3 x = negb (Number.ltb x n0_3)).
  { apply leb_flip, in_unit_interval_compares; [exact Hx|].
    rewrite n0_3_repr. discriminate. }
  assert (H6 : Number.leb n0_6 x = negb (Number.ltb x n0_6)).
  { apply leb_flip, in_unit_interval_compares; [exact Hx|].
    rewrite n0_6_repr. discriminate. }
  pose proof (below_0_3_below_0_6 x) as Htrans.
  unfold stress_label.
  rewrite H3, H6.
  destruct (Number.ltb x n0_3).
  - rewrite (Htrans eq_refl). left. repeat split.
  - destruct (Number.ltb x n0_6).
    + right; left. repeat split.
    + right; right. repeat split.
Qed.

(** C4. For a score with [0 <= score <= 1], rendering assigns the label
    "Low Stress" exactly when [0 <= score < 0.3], "Moderate Stress" exactly
    when [0.3 <= score < 0.6] and "High Stress" exactly when
    [0.6 <= score <= 1], the bounds being the numbers that the literals
    denote and the comparisons those of the language; and the scores 0.29,
    0.3, 0.59, 0.6 and 1.0 get the labels "Low Stress", "Moderate Stress",
    "Moderate Stress", "High Stress" and "High Stress". *)
Theorem interpretation_tiers :
  (forall x features st,
     in_unit_interval x ->
     let label := label_after (JS.VNum x) features st in
     (label = "Low Stress" <->
      Number.leb Number.zero x = true /\ Number.ltb x n0_3 = true) /\
     (label = "Moderate Stress" <->
      Number.leb n0_3 x = true /\ Number.ltb x n0_6 = true) /\
     (label = "High Stress" <->
      Number.leb n0_6 x = true /\ Number.leb x n1 = true)) /\
  (forall features st,
     label_after (Sample.num 29 2) features st = "Low Stress" /\
     label_after (Sample.num 3 1) features st = "Moderate Stress" /\
     label_after (Sample.num 59 2) features st = "Moderate Stress" /\
     label_after (Sample.num 6 1) features st = "High Stress" /\
     label_after (Sample.num 1 0) features st = "High Stress").
Proof.
  split.
  - intros x features st Hx. cbv zeta. rewrite label_after_number.
    destruct Hx as [H0 H1].
    destruct (interpretation_cases x (conj H0 H1))
      as [(Hlt3 & -> & Hle3 & Hle6)
         | [(Hlt3 & Hlt6 & -> & Hle3 & Hle6)
           | (Hlt3 & Hlt6 & -> & Hle3 & Hle6)]];
      rewrite ?H0, ?H1, ?Hlt3, ?Hlt6, ?Hle3, ?Hle6;
      repeat split; try discriminate; try reflexivity;
      intros [Ha Hb]; discriminate.
  - intros features st. unfold Sample.num. rewrite !label_after_number.
    repeat split; vm_compute; reflexivity.
Qed.

Lemma interpretation_tiers_witness :
  in_unit_interval (Number.of_decimal 45 2) /\
  (label_after (Sample.num 45 2) (JS.VObj []) Sample.loaded
     = "Moderate Stress" <->
   Number.leb n0_3 (Number.of_decimal 45 2) = true /\
   Number.ltb (Number.of_decimal 45 2) n0_6 = true).
Proof.
  assert (Hx : in_unit_interval (Number.of_decimal 45 2))
    by (split; vm_compute; reflexivity).
  split; [exact Hx|].
  destruct interpretation_tiers as [Htiers _].
  destruct (Htiers (Number.of_decimal 45 2) (JS.VObj []) Sample.loaded Hx)
    as (_ & Hmoderate & _).
  exact Hmoderate.
Defined.

(** *** The score text and the feature elements *)

(** A mantissa of [d] binary digits is below [2^d]. *)
Lemma digits2_pos_bound m : Zpos m < 2 ^ Zpos (digits2_pos m).
Proof.
  induction m as [m IH | m IH |]; cbn [digits2_pos];
    rewrite ?Pos2Z.inj_succ, ?Z.pow_succ_r by lia; lia.
Qed.

Lemma double_mantissa s m e :
  is_double (S754_finite s m e) -> Zpos m < 2 ^ 53.
Proof.
  unfold is_double, valid_binary, bounded, canonical_mantissa, fexp, emin,
    Number.prec, Number.emax.
  intros H. apply andb_true_iff in H as [H _]. apply Z.eqb_eq in H.
  apply Z.lt_le_trans with (1 := digits2_pos_bound m).
  apply Z.pow_le_mono_r; lia.
Qed.

Lemma unit_magnitude m e :
  is_double (S754_finite false m e) ->
  Number.leb (S754_finite false m e) n1 = true ->
  (Number.magnitude m e <= 1)%Q.
Proof.
  intros Hd Hle. pose proof (double_mantissa _ _ _ Hd) as Hm.
  rewrite n1_repr in Hle. unfold Number.leb, SFleb in Hle.
  rewrite SFcompare_positive in Hle.
  destruct (Z.compare_spec e (-52)) as [He | He | He]; [| |discriminate].
  - subst e. unfold Number.magnitude, Qle. cbn [Qnum Qden].
    rewrite Z.mul_1_r, Z.mul_1_l.
    destruct (Pos.compare_spec m 4503599627370496) as [Hc|Hc|Hc];
      [subst m; discriminate | | discriminate Hle].
    apply Z.lt_le_incl, Pos2Z.pos_lt_pos. exact Hc.
  - destruct e as [|p|p]; try lia.
    unfold Number.magnitude, Qle. cbn [Qnum Qden].
    rewrite Z.mul_1_r, Z.mul_1_l, Pos2Z.inj_pow.
    apply Z.lt_le_incl, Z.lt_le_trans with (1 := Hm).
    apply Z.pow_le_mono_r; lia.
Qed.

(** *** The gauge width of a score of the unit interval *)

Lemma digits2_pos_lower m : 2 ^ (Zpos (digits2_pos m) - 1) <= Zpos m.
Proof.
  induction m as [m IH | m IH |]; cbn [digits2_pos].
  - rewrite Pos2Z.inj_succ.
    replace (Z.succ (Zpos (digits2_pos m)) - 1) with (Z.succ (Zpos (digits2_pos m) - 1)) by lia.
    rewrite Z.pow_succ_r by lia. lia.
  - rewrite Pos2Z.inj_succ.
    replace (Z.succ (Zpos (digits2_pos m)) - 1) with (Z.succ (Zpos (digits2_pos m) - 1)) by lia.
    rewrite Z.pow_succ_r by lia. lia.
  - cbn. lia.
Qed.

Lemma Zdigits2_bound z k : 0 <= k -> 0 <= z < 2 ^ k -> Zdigits2 z <= k.
Proof.
  intros Hk [H0 Hz]. destruct z as [|m|m]; cbn [Zdigits2]; [lia| |lia].
  pose proof (digits2_pos_lower m) as Hlow.
  assert (Hlt : 2 ^ (Zpos (digits2_pos m) - 1) < 2 ^ k) by lia.
  apply Z.pow_lt_mono_r_iff in Hlt; lia.
Qed.

Lemma shr_1_m r : 0 <= shr_m r -> 0 <= shr_m (shr_1 r) <= shr_m r.
Proof.
  destruct r as [m r s]. cbn [shr_m]. intros Hm.
  destruct m as [|p|p]; [cbn; lia | | lia].
  destruct p; cbn [shr_1 shr_m]; lia.
Qed.

Lemma iter_pos_shr_1 p : forall r,
  0 <= shr_m r -> 0 <= shr_m (iter_pos shr_1 p r) <= shr_m r.
Proof.
  induction p as [p IH | p IH |]; intros r Hr; cbn [iter_pos].
  - pose proof (shr_1_m r Hr) as H0.
    pose proof (IH _ (proj1 H0)) as H1.
    pose proof (IH _ (proj1 H1)) as H2. lia.
  - pose proof (IH r Hr) as H1.
    pose proof (IH _ (proj1 H1)) as H2. lia.
  - apply shr_1_m, Hr.
Qed.

Lemma shr_fexp_bounds m e l :
  0 <= m ->
  let '(r, e') := shr_fexp Number.prec Number.emax m e l in
  0 <= shr_m r <= m /\
  (e' = e \/ e' = fexp Number.prec Number.emax (Zdigits2 m + e)).
Proof.
  intros Hm. unfold shr_fexp, shr.
  assert (Hrec : shr_m (shr_record_of_loc m l) = m)
    by (destruct l as [|[]]; reflexivity).
  destruct (fexp Number.prec Number.emax (Zdigits2 m + e) - e) as [|p|p] eqn:Hn.
  - rewrite Hrec. split; [lia | left; reflexivity].
  - pose proof (iter_pos_shr_1 p (shr_record_of_loc m l)) as H.
    rewrite Hrec in H. split; [apply H, Hm | right; lia].
  - rewrite Hrec. split; [lia | left; reflexivity].
Qed.

Lemma round_nearest_even_bounds m l :
  m <= round_nearest_even m l <= m + 1.
Proof.
  unfold round_nearest_even. destruct l as [|[]]; try lia.
  destruct (Z.even m); lia.
Qed.

(** The product of a number of the unit interval with a number below
    [2^53 * 2^(-46)] is a number that is not negative. *)
Lemma binary_round_aux_positive m e :
  0 <= m < 2 ^ 106 -> e <= -98 ->
  width_accepts
    (binary_round_aux Number.prec Number.emax false m e loc_Exact) = true.
Proof.
  intros [Hm0 Hm] He. unfold binary_round_aux.
  pose proof (shr_fexp_bounds m e loc_Exact Hm0) as H1.
  destruct (shr_fexp Number.prec Number.emax m e loc_Exact) as [r1 e1].
  destruct H1 as [Hr1 He1].
  pose proof (round_nearest_even_bounds (shr_m r1) (loc_of_shr_record r1))
    as Hround.
  set (m1 := round_nearest_even (shr_m r1) (loc_of_shr_record r1)) in *.
  assert (Hm1 : 0 <= m1) by lia.
  pose proof (shr_fexp_bounds m1 e1 loc_Exact Hm1) as H2.
  destruct (shr_fexp Number.prec Number.emax m1 e1 loc_Exact) as [r2 e2].
  destruct H2 as [Hr2 He2].
  assert (Hd : Zdigits2 m <= 106) by (apply Zdigits2_bound; lia).
  assert (Hd1 : Zdigits2 m1 <= 107).
  { apply Zdigits2_bound; [lia|]. split; [lia|].
    change (2 ^ 107) with (2 * 2 ^ 106). lia. }
  unfold fexp, emin, Number.prec, Number.emax in He1, He2.
  destruct (shr_m r2) as [|p|p] eqn:Hp; [reflexivity | | lia].
  unfold Number.emax, Number.prec.
  assert (Hle : (e2 <=? 1024 - 53) = true) by (apply Z.leb_le; lia).
  rewrite Hle. reflexivity.
Qed.

Lemma n100_repr : n100 = S754_finite false 7036874417766400 (-46).
Proof. vm_compute. reflexivity. Qed.

Lemma unit_exponent m e :
  Number.leb (S754_finite false m e) n1 = true -> e <= -52.
Proof.
  rewrite n1_repr. unfold Number.leb, SFleb. rewrite SFcompare_positive.
  destruct (Z.compare_spec e (-52)) as [He | He | He]; [lia | lia | discriminate].
Qed.

(** The gauge takes the width of every score of the unit interval. *)
Lemma width_unit x :
  is_double x -> in_unit_interval x ->
  width_accepts (Number.mul x n100) = true.
Proof.
  intros Hd [H0 H1]. rewrite n100_repr.
  destruct x as [s | [|] | | [|] m e]; try discriminate H0;
    try discriminate H1; [reflexivity|].
  pose proof (double_mantissa _ _ _ Hd) as Hm.
  pose proof (unit_exponent m e H1) as He.
  unfold Number.mul, SFmul. cbn [xorb].
  apply binary_round_aux_positive; [|lia].
  rewrite Pos2Z.inj_mul. split; [apply Z.lt_le_incl; reflexivity|].
  change (2 ^ 106) with (2 ^ 53 * 2 ^ 53).
  apply Z.mul_lt_mono_nonneg; [apply Pos2Z.is_nonneg | exact Hm
                              | apply Pos2Z.is_nonneg | reflexivity].
Qed.

Lemma magnitude_positive m e : (0 < Number.magnitude m e)%Q.
Proof.
  unfold Number.magnitude.
  destruct e as [|p|p]; unfold Qlt; cbn [Qnum Qden inject_Z];
    rewrite ?Z.mul_1_r; try reflexivity.
  apply Z.mul_pos_pos; [reflexivity|]. apply Z.pow_pos_nonneg; lia.
Qed.

(** The hundredths nearest to a value of the unit interval. *)
Lemma nearest_scaled_unit v :
  (0 <= v)%Q -> (v <= 1)%Q ->
  0 <= Number.nearest_scaled v 2 <= 100 /\
  nearest_hundredths v (Number.nearest_scaled v 2).
Proof.
  intros H0 H1. unfold Number.nearest_scaled, nearest_hundredths.
  change (Number.pow10 2) with (100 # 1)%Q.
  assert (H0n : Qfloor (1 # 2) <= Qfloor (v * (100 # 1) + (1 # 2))%Q)
    by (apply Qfloor_resp_le; lra).
  assert (Hn100 : Qfloor (v * (100 # 1) + (1 # 2))%Q <= Qfloor (201 # 2))
    by (apply Qfloor_resp_le; lra).
  pose proof (Qfloor_le (v * (100 # 1) + (1 # 2))%Q) as Hlo.
  pose proof (Qlt_floor (v * (100 # 1) + (1 # 2))%Q) as Hhi.
  revert H0n Hn100 Hlo Hhi.
  generalize (Qfloor (v * (100 # 1) + (1 # 2))%Q). intros n H0n Hn100 Hlo Hhi.
  change (Qfloor (1 # 2)) with 0 in H0n.
  change (Qfloor (201 # 2)) with 100 in Hn100.
  rewrite inject_Z_plus in Hhi. change (inject_Z 1) with 1%Q in Hhi.
  repeat split; try assumption; lra.
Qed.

Lemma fixed_digits_hundredths n :
  0 <= n <= 100 -> Number.fixed_digits n 2 = two_decimals n.
Proof.
  intros Hn.
  assert (Hall : forallb
            (fun k => String.eqb (Number.fixed_digits (Z.of_nat k) 2)
                                 (two_decimals (Z.of_nat k)))
            (seq 0 101) = true) by (vm_compute; reflexivity).
  rewrite forallb_forall in Hall.
  specialize (Hall (Z.to_nat n)).
  rewrite Z2Nat.id in Hall by lia.
  apply String.eqb_eq, Hall, in_seq. lia.
Qed.

(** [toFixed(2)] on a score of the unit interval. *)
Lemma toFixed_unit x :
  is_double x -> in_unit_interval x ->
  exists n v,
    Number.value x = Some v /\ 0 <= n <= 100 /\ nearest_hundredths v n /\
    Number.toFixed x 2 = two_decimals n.
Proof.
  intros Hd [H0 H1].
  destruct x as [s | [|] | | [|] m e]; try discriminate H0;
    try discriminate H1.
  - exists 0, 0%Q. split; [reflexivity|]. split; [lia|].
    split; [unfold nearest_hundredths; change (inject_Z 0) with 0%Q; lra|].
    cbn [Number.toFixed]. apply fixed_digits_hundredths. lia.
  - pose proof (unit_magnitude m e Hd H1) as Hle.
    pose proof (magnitude_positive m e) as Hpos.
    destruct (nearest_scaled_unit (Number.magnitude m e))
      as [Hn Hnear]; [lra | exact Hle |].
    exists (Number.nearest_scaled (Number.magnitude m e) 2),
           (Number.magnitude m e).
    split; [reflexivity|]. split; [exact Hn|]. split; [exact Hnear|].
    cbn [Number.toFixed].
    destruct (Qle_bool (Number.pow10 21) (Number.magnitude m e)) eqn:Hbig.
    + apply Qle_bool_iff in Hbig.
      change (Number.pow10 21) with (1000000000000000000000 # 1)%Q in Hbig.
      lra.
    + cbn [append]. apply fixed_digits_hundredths, Hn.
Qed.

(** The display name, character by character. *)
Lemma is_word_replaced c :
  Str.is_word (if Ascii.eqb c "_" then " "%char else c) = is_alnum c.
Proof.
  unfold Str.is_word, is_alnum.
  destruct (Ascii.eqb_spec c "_") as [-> | Hc]; [reflexivity|].
  destruct (Ascii.eqb_spec c "_") as [Heq | _]; [contradiction|].
  now rewrite orb_false_r.
Qed.

Lemma capitalize_replaced_get s : forall prev i,
  String.get i (Str.capitalize_from prev (Str.replace_underscores s)) =
  option_map
    (fun c =>
       if Ascii.eqb c "_" then " "%char
       else if is_alnum c &&
               negb match i with
                    | O => prev
                    | S j =>
                        match String.get j s with
                        | Some p => is_alnum p
                        | None => false
                        end
                    end
            then Str.toUpperCase c
            else c)
    (String.get i s).
Proof.
  induction s as [|a s IH]; intros prev i; [destruct i; reflexivity|].
  unfold Str.replace_underscores in *. cbn [Str.map Str.capitalize_from].
  destruct i as [|i]; cbn [String.get option_map].
  - rewrite is_word_replaced.
    destruct (Ascii.eqb_spec a "_") as [-> | Ha]; reflexivity.
  - rewrite IH, is_word_replaced. destruct i; reflexivity.
Qed.

Lemma displayName_get key i :
  String.get i (displayName key) =
  option_map (displayed_char (char_before key i)) (String.get i key).
Proof.
  unfold displayName, Str.capitalize_words.
  rewrite capitalize_replaced_get.
  destruct i as [|j]; cbn [char_before]; unfold displayed_char.
  - reflexivity.
  - destruct (String.get (S j) key); [|reflexivity].
    destruct (String.get j key); reflexivity.
Qed.


Lemma filter_split_perm {A : Type} (f : A -> bool) l :
  Permutation (filter f l ++ filter (fun a => negb (f a)) l)%list l.
Proof.
  induction l as [|a l IH]; cbn [filter]; [reflexivity|].
  destruct (f a); cbn [negb app].
  - constructor. exact IH.
  - symmetry. apply Permutation_cons_app. symmetry. exact IH.
Qed.

Lemma insert_by_index_perm kv l :
  Permutation (JS.insert_by_index kv l) (kv :: l).
Proof.
  induction l as [|kv' l IH]; cbn [JS.insert_by_index]; [reflexivity|].
  destruct (JS.index_of kv <? JS.index_of kv'); [reflexivity|].
  rewrite IH. apply perm_swap.
Qed.

Lemma sort_by_index_perm l : Permutation (JS.sort_by_index l) l.
Proof.
  induction l as [|kv l IH]; cbn [JS.sort_by_index fold_right]; [reflexivity|].
  fold (JS.sort_by_index l). rewrite insert_by_index_perm, IH. reflexivity.
Qed.

(** The entries of an object are its properties, in some order. *)
Lemma own_entries_perm props : Permutation (JS.own_entries props) props.
Proof.
  unfold JS.own_entries. rewrite sort_by_index_perm.
  apply filter_split_perm.
Qed.


Lemma append_assoc (a b c : string) : (a ++ b) ++ c = a ++ b ++ c.
Proof.
  induction a as [|ch a IH]; cbn [append]; [reflexivity|].
  now rewrite IH.
Qed.

(** C6, as the code has it. Rendering a score that is a number with
    [0 <= score <= 1] and a feature mapping whose contributions have
    number values completes and shows: as score text, the two-decimal
    text of the hundredths nearest to the score; as gauge width, the
    product [score * 100] followed by [%], a width that the gauge takes;
    the result container; and as feature elements one element for each
    feature and no other. The element of a feature is assigned the markup
    of the template, which holds, unescaped, the key with underscores
    turned into spaces and with the first character of every run of
    letters and digits in upper case, then the product
    [contribution * 100] at one decimal followed by [%], and a bar whose
    width is that product followed by [%], unclamped. A contribution
    without a number value has no element: building it throws. In
    particular the score 0.75 with the features {"pitch_variance": 0.4}
    gives "0.75", "75%", "High Stress" and "Pitch Variance" at "40.0%"
    with a bar of width "40%", and a contribution of 1.5 gives "150.0%"
    and a bar of width "150%". *)
Theorem render_displays :
  (forall x props st,
     is_double x -> in_unit_interval x -> Forall converts props ->
     exists st' n v els,
       updateResults (JS.VNum x) (JS.VObj props) st = (st', JS.Normal tt) /\
       Number.value x = Some v /\ 0 <= n <= 100 /\ nearest_hundredths v n /\
       scoreValue_textContent (dom st') = two_decimals n /\
       scoreFill_width (dom st')
         = Number.toString (Number.mul x n100) ++ "%" /\
       resultContainer_display (dom st') = "block" /\
       Permutation (featuresContainer (dom st')) els /\
       Forall2 (fun kv el => featureEl kv = JS.Normal el) props els) /\
  (forall key c n,
     JS.ToNumber c = JS.Normal n ->
     featureEl (key, c) =
     JS.Normal
       {| className := "feature";
          innerHTML :=
            "
                <div class=" ++ Str.dquote ++ "feature-name" ++ Str.dquote ++ ">
                    <span>" ++ displayName key ++ "</span>
                    <span>" ++ Number.toFixed (Number.mul n n100) 1 ++ "%</span>
                </div>
                <div class=" ++ Str.dquote ++ "feature-bar" ++ Str.dquote ++ ">
                    <div class=" ++ Str.dquote ++ "feature-fill" ++ Str.dquote
            ++ " style=" ++ Str.dquote ++ "width: "
            ++ Number.toString (Number.mul n n100) ++ "%" ++ Str.dquote
            ++ "></div>
                </div>
            " |}) /\
  (forall key c e,
     JS.ToNumber c = JS.Throw e -> featureEl (key, c) = JS.Throw e) /\
  (forall key i,
     String.get i (displayName key) =
     option_map (displayed_char (char_before key i)) (String.get i key)) /\
  (let st' :=
     fst (updateResults (Sample.num 75 2)
            (JS.VObj [("pitch_variance", Sample.num 4 1)]) Sample.loaded) in
   scoreValue_textContent (dom st') = "0.75" /\
   scoreFill_width (dom st') = "75%" /\
   scoreInterpretation_textContent (dom st') = "High Stress" /\
   featuresContainer (dom st') =
     [{| className := "feature";
         innerHTML :=
           "
                <div class=" ++ Str.dquote ++ "feature-name" ++ Str.dquote ++ ">
                    <span>Pitch Variance</span>
                    <span>40.0%</span>
                </div>
                <div class=" ++ Str.dquote ++ "feature-bar" ++ Str.dquote ++ ">
                    <div class=" ++ Str.dquote ++ "feature-fill" ++ Str.dquote
           ++ " style=" ++ Str.dquote ++ "width: 40%" ++ Str.dquote
           ++ "></div>
                </div>
            " |}]) /\
  featureEl ("tempo", Sample.num 15 1) =
    JS.Normal
      {| className := "feature";
         innerHTML :=
           "
                <div class=" ++ Str.dquote ++ "feature-name" ++ Str.dquote ++ ">
                    <span>Tempo</span>
                    <span>150.0%</span>
                </div>
                <div class=" ++ Str.dquote ++ "feature-bar" ++ Str.dquote ++ ">
                    <div class=" ++ Str.dquote ++ "feature-fill" ++ Str.dquote
           ++ " style=" ++ Str.dquote ++ "width: 150%" ++ Str.dquote
           ++ "></div>
                </div>
            " |}.
Proof.
  split; [|split; [|split; [|split; [|split]]]].
  - intros x props st Hd Hx Hconv.
    destruct (toFixed_unit x Hd Hx) as (n & v & Hv & Hn & Hnear & Htext).
    assert (Hentries : Forall converts (JS.own_entries props))
      by (apply (Permutation_Forall (Permutation_sym (own_entries_perm props))),
            Hconv).
    destruct (loop_completes _ Hentries) as [Hend Hels].
    destruct (Permutation_Forall2 (own_entries_perm props) Hels)
      as (els & Hperm & Hall).
    rewrite updateResults_number. cbn [JS.entries]. rewrite Hend.
    eexists _, n, v, els.
    split; [reflexivity|].
    cbn [dom rendered scoreValue_textContent scoreFill_width
         resultContainer_display featuresContainer].
    unfold gauge_width. rewrite (width_unit x Hd Hx).
    repeat (split; try assumption).
  - intros key c n Hn. rewrite (featureEl_converts key c n Hn).
    do 2 f_equal. unfold feature_markup, Str.newline, Str.dquote.
    cbn [Str.spaces append]. rewrite !append_assoc. cbn [append].
    reflexivity.
  - exact featureEl_throws.
  - exact displayName_get.
  - cbv zeta. unfold Sample.num.
    rewrite updateResults_number.
    repeat split; vm_compute; reflexivity.
  - vm_compute. reflexivity.
Qed.

Lemma render_displays_witness :
  is_double (Number.of_decimal 29 2) /\
  in_unit_interval (Number.of_decimal 29 2) /\
  Forall converts [("jitter", Sample.num 5 2)] /\
  exists st' n v,
    updateResults (Sample.num 29 2)
      (JS.VObj [("jitter", Sample.num 5 2)]) Sample.loaded
      = (st', JS.Normal tt) /\
    Number.value (Number.of_decimal 29 2) = Some v /\ 0 <= n <= 100 /\
    nearest_hundredths v n /\
    scoreValue_textContent (dom st') = two_decimals n.
Proof.
  assert (Hd : is_double (Number.of_decimal 29 2))
    by (vm_compute; reflexivity).
  assert (Hx : in_unit_interval (Number.of_decimal 29 2))
    by (split; vm_compute; reflexivity).
  assert (Hconv : Forall converts [("jitter", Sample.num 5 2)])
    by (repeat constructor; eexists; reflexivity).
  split; [exact Hd|]. split; [exact Hx|]. split; [exact Hconv|].
  destruct render_displays as (Hrender & _).
  destruct (Hrender (Number.of_decimal 29 2)
              [("jitter", Sample.num 5 2)] Sample.loaded Hd Hx Hconv)
    as (st' & n & v & els & Hrun & Hv & Hn & Hnear & Htext & _).
  exists st', n, v. split; [exact Hrun|]. split; [exact Hv|].
  split; [exact Hn|]. split; [exact Hnear | exact Htext].
Defined.

(** C6 as stated fails on the display name. The script puts in upper case
    the first character of every run of letters and digits, not the first
    letter of every word: in "don't_stop" the letter after the apostrophe
    is capitalized too. *)
Lemma letter_after_apostrophe_capitalized :
  displayName "don't_stop" = "Don'T Stop" /\
  humanized "don't_stop" = "Don't Stop" /\
  displayName "don't_stop" <> humanized "don't_stop".
Proof.
  split; [vm_compute; reflexivity|]. split; [vm_compute; reflexivity|].
  vm_compute. discriminate.
Qed.

(** *** Rendering again *)







(** ** The outcomes of an exchange *)

Lemma get_throws_TypeError data k e :
  JS.get data k = JS.Throw e -> JS.name e = "TypeError".
Proof.
  destruct data; cbn; intros H; try discriminate H;
    injection H as <-; reflexivity.
Qed.

Lemma entries_throws_TypeError v e :
  JS.entries v = JS.Throw e -> JS.name e = "TypeError".
Proof.
  destruct v; cbn; intros H; try discriminate H;
    injection H as <-; reflexivity.
Qed.

Lemma call_toFixed_not_a_number score :
  (forall x, score <> JS.VNum x) ->
  exists e, call_toFixed score 2 = JS.Throw e /\ JS.name e = "TypeError".
Proof.
  intros Hscore.
  destruct score; cbn; try (eexists; split; reflexivity).
  exfalso. eapply Hscore. reflexivity.
Qed.

(** The chain after the body has parsed: the cleanup follows the handler
    of the data, with the report in between when that handler throws. *)
Lemma exchange_of_data data st :
  exchange (JS.Normal {| json := JS.Normal data |}) st =
  match on_data data st with
  | (st1, JS.Normal _) => (cleaned st1, JS.Normal tt)
  | (st1, JS.Throw e) => (cleaned (reported e st1), JS.Normal tt)
  end.
Proof.
  unfold exchange, finally_, catch_, then_, bind, eval. cbn [json].
  destruct (on_data data st) as [st1 [[]|e]]; reflexivity.
Qed.

Lemma on_data_success data success st :
  JS.get data "success" = JS.Normal success ->
  JS.ToBoolean success = true ->
  on_data data st =
  updateResults (field data "score") (field data "features") st.
Proof.
  intros Hget Htruthy. unfold on_data, bind, eval.
  rewrite Hget, Htruthy.
  rewrite (get_field data "success" success "score" Hget).
  rewrite (get_field data "success" success "features" Hget).
  reflexivity.
Qed.

Lemma on_data_unreadable data e st :
  JS.get data "success" = JS.Throw e -> on_data data st = (st, JS.Throw e).
Proof.
  intros Hget. unfold on_data, bind, eval. rewrite Hget. reflexivity.
Qed.

(** X1. A body with a truthy [success], a number as [score] and features
    whose entries all have contributions with number values is rendered
    in full: the score text and the label are written, the gauge takes the
    width [score * 100] unless that is negative or no number, one element
    per entry is built, the result container is shown, one timer is set,
    nothing is alerted or logged, and the cleanup has run. *)
Theorem successful_exchange_renders data success x entries st :
  JS.get data "success" = JS.Normal success ->
  JS.ToBoolean success = true ->
  field data "score" = JS.VNum x ->
  JS.entries (field data "features") = JS.Normal entries ->
  Forall converts entries ->
  let st' := fst (exchange (JS.Normal {| json := JS.Normal data |}) st) in
  exists els,
    Forall2 (fun kv el => featureEl kv = JS.Normal el) entries els /\
    rendering (dom st') =
      (Number.toFixed x 2,
       if width_accepts (Number.mul x n100)
       then Number.toString (Number.mul x n100) ++ "%"
       else scoreFill_width (dom st),
       stress_label x, els, "block") /\
    alerts (world st') = alerts (world st) /\
    console_errors (world st') = console_errors (world st) /\
    timeouts (world st') = (timeouts (world st) ++ [100])%list /\
    loading_display (dom st') = "none" /\
    analyzeBtn_disabled (dom st') = false.
Proof.
  intros Hget Htruthy Hscore Hentries Hconv. cbv zeta.
  destruct (loop_completes entries Hconv) as [Hend Hels].
  exists (appended entries). split; [exact Hels|].
  rewrite exchange_of_data, (on_data_success data success st Hget Htruthy).
  rewrite Hscore, updateResults_number, Hentries, Hend.
  repeat split.
Qed.

Lemma successful_exchange_renders_witness :
  JS.get Sample.scored "success" = JS.Normal (JS.VBool true) /\
  Forall converts [("pitch_variance", Sample.num 4 1)] /\
  scoreValue_textContent
    (dom (fst (exchange (Sample.respond Sample.scored) Sample.waiting)))
  = "0.75".
Proof.
  assert (Hconv : Forall converts [("pitch_variance", Sample.num 4 1)])
    by (repeat constructor; eexists; reflexivity).
  split; [reflexivity|]. split; [exact Hconv|].
  destruct (successful_exchange_renders Sample.scored (JS.VBool true)
              (Number.of_decimal 75 2)
              [("pitch_variance", Sample.num 4 1)] Sample.waiting
              eq_refl eq_refl eq_refl eq_refl Hconv)
    as (els & _ & Hrendering & _).
  apply (f_equal (fun t => fst (fst (fst (fst t))))) in Hrendering.
  unfold Sample.respond. cbn [rendering fst] in Hrendering.
  rewrite Hrendering. vm_compute. reflexivity.
Defined.

(** X2. When the request fails, or the body does not parse, with the
    error [e]: [e] is logged, the generic alert is shown, the cleanup runs
    and nothing else changes; in particular what was rendered stays as it
    was. *)
Theorem transport_failure_reports e st :
  exchange (JS.Throw e) st = (cleaned (reported e st), JS.Normal tt) /\
  exchange (JS.Normal {| json := JS.Throw e |}) st
    = (cleaned (reported e st), JS.Normal tt) /\
  rendering (dom (cleaned (reported e st))) = rendering (dom st) /\
  selection (cleaned (reported e st)) = selection st /\
  alerts (world (cleaned (reported e st))) =
    (alerts (world st) ++ ["An error occurred while processing the file."])
    %list /\
  console_errors (world (cleaned (reported e st))) =
    (console_errors (world st) ++ [("Error:", e)])%list /\
  requests (world (cleaned (reported e st))) = requests (world st).
Proof. repeat split. Qed.

(** X3. A body that cannot be read as an object ([null]), or that claims
    success with a [score] that is not a number, renders nothing: a
    [TypeError] is logged, the generic alert is shown, and the score
    text, gauge, label, feature elements and display of the result
    container are what they were. *)
Theorem unusable_body_renders_nothing data st :
  (exists e, JS.get data "success" = JS.Throw e) \/
  (exists success,
     JS.get data "success" = JS.Normal success /\
     JS.ToBoolean success = true /\
     forall x, field data "score" <> JS.VNum x) ->
  exists e,
    JS.name e = "TypeError" /\
    exchange (JS.Normal {| json := JS.Normal data |}) st
      = (cleaned (reported e st), JS.Normal tt) /\
    rendering (dom (cleaned (reported e st))) = rendering (dom st).
Proof.
  intros [[e Hget] | (success & Hget & Htruthy & Hscore)].
  - exists e. split; [exact (get_throws_TypeError _ _ _ Hget)|].
    rewrite exchange_of_data, (on_data_unreadable data e st Hget).
    split; reflexivity.
  - destruct (call_toFixed_not_a_number _ Hscore) as (e & Hcall & Hname).
    exists e. split; [exact Hname|].
    rewrite exchange_of_data, (on_data_success data success st Hget Htruthy).
    unfold updateResults, bind, eval. rewrite Hcall.
    split; reflexivity.
Qed.

Lemma unusable_body_renders_nothing_witness :
  (exists e, JS.get JS.VNull "success" = JS.Throw e) /\
  exists e,
    JS.name e = "TypeError" /\
    exchange (Sample.respond JS.VNull) Sample.shown
      = (cleaned (reported e Sample.shown), JS.Normal tt).
Proof.
  assert (Hnull : exists e, JS.get JS.VNull "success" = JS.Throw e)
    by (eexists; reflexivity).
  split; [exact Hnull|].
  destruct (unusable_body_renders_nothing JS.VNull Sample.shown
              (or_introl Hnull)) as (e & Hname & Hrun & _).
  exists e. split; [exact Hname | exact Hrun].
Defined.

(** X4. A body that claims success with a number as [score] but with no
    [features] (or [null]) is rendered in part: the score text and the
    label are those of the new score, the gauge takes the width
    [score * 100] unless that is negative or no number, and the feature
    elements are gone, while the display of the result container is left
    as it was; a [TypeError] is logged and the generic alert is shown. *)
Theorem missing_features_render_partly data success x st :
  JS.get data "success" = JS.Normal success ->
  JS.ToBoolean success = true ->
  field data "score" = JS.VNum x ->
  field data "features" = JS.VUndefined \/ field data "features" = JS.VNull ->
  let st' := fst (exchange (JS.Normal {| json := JS.Normal data |}) st) in
  rendering (dom st') =
    (Number.toFixed x 2,
     if width_accepts (Number.mul x n100)
     then Number.toString (Number.mul x n100) ++ "%"
     else scoreFill_width (dom st),
     stress_label x, [], resultContainer_display (dom st)) /\
  alerts (world st') =
    (alerts (world st) ++ ["An error occurred while processing the file."])
    %list /\
  (exists e,
     JS.name e = "TypeError" /\
     console_errors (world st') =
       (console_errors (world st) ++ [("Error:", e)])%list) /\
  timeouts (world st') = timeouts (world st).
Proof.
  intros Hget Htruthy Hscore Hfeatures. cbv zeta.
  rewrite exchange_of_data, (on_data_success data success st Hget Htruthy).
  rewrite Hscore, updateResults_number.
  assert (Hentries : exists e, JS.entries (field data "features") = JS.Throw e).
  { destruct Hfeatures as [-> | ->]; eexists; reflexivity. }
  destruct Hentries as [e Hentries]. rewrite Hentries.
  repeat split.
  exists e. split; [exact (entries_throws_TypeError _ _ Hentries) | reflexivity].
Qed.

Lemma missing_features_render_partly_witness :
  field Scenario.scored_without_features "features" = JS.VUndefined /\
  scoreInterpretation_textContent
    (dom (fst (exchange (Sample.respond Scenario.scored_without_features)
                 Sample.waiting)))
  = "Moderate Stress" /\
  resultContainer_display
    (dom (fst (exchange (Sample.respond Scenario.scored_without_features)
                 Sample.waiting)))
  = "none".
Proof.
  split; [reflexivity|].
  destruct (missing_features_render_partly
              Scenario.scored_without_features
              (JS.VBool true) (Number.of_decimal 5 1) Sample.waiting
              eq_refl eq_refl eq_refl (or_introl eq_refl))
    as (Hrendering & _).
  unfold Sample.respond. split.
  - apply (f_equal (fun t => snd (fst (fst t)))) in Hrendering.
    cbn [rendering fst snd] in Hrendering. rewrite Hrendering.
    vm_compute. reflexivity.
  - apply (f_equal snd) in Hrendering.
    cbn [rendering snd] in Hrendering. rewrite Hrendering. reflexivity.
Defined.

(** Rendering, complete or not, stays within the document's result area
    and the timers. *)
Lemma updateResults_outside score features st :
  let st' := fst (updateResults score features st) in
  outside_exchange st' = outside_exchange st /\
  alerts (world st') = alerts (world st) /\
  console_errors (world st') = console_errors (world st) /\
  loading_display (dom st') = loading_display (dom st) /\
  analyzeBtn_disabled (dom st') = analyzeBtn_disabled (dom st).
Proof.
  cbv zeta.
  destruct score as [ | | b | x | s | items | props ];
    try (repeat split; fail).
  rewrite updateResults_number.
  destruct (JS.entries features) as [entries | e];
    [destruct (loop_end entries) as [[] | e]|]; repeat split.
Qed.

(** Every exchange ends in one of two ways: with a complete rendering and
    no alert, or with one alert and the result container as it was. *)
Lemma exchange_cases r st :
  let st' := fst (exchange r st) in
  outside_exchange st' = outside_exchange st /\
  loading_display (dom st') = "none" /\
  analyzeBtn_disabled (dom st') = false /\
  if renders r then
    resultContainer_display (dom st') = "block" /\
    alerts (world st') = alerts (world st) /\
    console_errors (world st') = console_errors (world st)
  else
    resultContainer_display (dom st') = resultContainer_display (dom st) /\
    exists msg, alerts (world st') = (alerts (world st) ++ [msg])%list.
Proof.
  cbv zeta.
  destruct r as [[[data | e]] | e];
    [ | repeat split; eexists; reflexivity
      | repeat split; eexists; reflexivity ].
  rewrite exchange_of_data. unfold renders. cbn [json].
  destruct (JS.get data "success") as [success | e] eqn:Hget.
  - destruct (JS.ToBoolean success) eqn:Htruthy; cbn [andb].
    + rewrite (on_data_success data success st Hget Htruthy).
      destruct (field data "score") as [ | | b | x | s | items | props ];
        try (repeat split; eexists; reflexivity).
      rewrite updateResults_number.
      destruct (JS.entries (field data "features")) as [entries | e];
        [destruct (loop_end entries) as [[] | e]|];
        repeat split; eexists; reflexivity.
    + rewrite (on_data_failure data success st Hget Htruthy).
      destruct (JS.ToString
                  (JS.or (field data "errors") (field data "error")));
        repeat split; eexists; reflexivity.
  - rewrite (on_data_unreadable data e st Hget).
    repeat split. eexists. reflexivity.
Qed.

(** X5. After a click that submits, the result container is shown exactly
    when the settlement leads to a complete rendering; on every other
    settlement it stays hidden. *)
Theorem result_shown_iff_rendered st file r :
  currentFile st = Some file ->
  analyzeBtn_disabled (dom st) = false ->
  resultContainer_display (dom (run [AnalyzeClick; Settled r] st)) = "block"
  <-> renders r = true.
Proof.
  intros Hfile Hdis.
  cbn [run fold_left step]. rewrite Hdis.
  unfold analyzeBtn_click. rewrite Hfile. cbv zeta.
  cbn [fetch on_world world set_world set_pending pending].
  match goal with
  | |- context [exchange r ?s] =>
      pose proof (exchange_cases r s) as Hcases; cbv zeta in Hcases;
      destruct Hcases as (_ & _ & _ & Hcases)
  end.
  destruct (renders r).
  - destruct Hcases as (-> & _). split; reflexivity.
  - destruct Hcases as (-> & _). cbn. split; discriminate.
Qed.

Lemma result_shown_iff_rendered_witness :
  currentFile Sample.shown = Some Sample.recording /\
  analyzeBtn_disabled (dom Sample.shown) = false /\
  renders (Sample.respond Scenario.scored_without_features) = false /\
  resultContainer_display
    (dom (run [AnalyzeClick;
               Settled (Sample.respond Scenario.scored_without_features)]
            Sample.shown)) <> "block".
Proof.
  split; [reflexivity|]. split; [reflexivity|]. split; [reflexivity|].
  intros Hshown.
  apply (result_shown_iff_rendered Sample.shown Sample.recording
           (Sample.respond Scenario.scored_without_features)
           eq_refl eq_refl) in Hshown.
  discriminate Hshown.
Defined.

(** X6. An exchange shows no alert when it leads to a complete rendering
    and exactly one alert otherwise, whatever the failure. *)
Theorem one_alert_unless_rendered r st :
  exists shown,
    alerts (world (fst (exchange r st)))
      = (alerts (world st) ++ shown)%list /\
    List.length shown = if renders r then 0%nat else 1%nat.
Proof.
  pose proof (exchange_cases r st) as Hcases. cbv zeta in Hcases.
  destruct Hcases as (_ & _ & _ & Hcases).
  destruct (renders r).
  - destruct Hcases as (_ & -> & _). exists []. rewrite app_nil_r.
    split; reflexivity.
  - destruct Hcases as (_ & msg & ->). exists [msg]. split; reflexivity.
Qed.

(** X7. An exchange, however it ends, leaves the selection, the drop
    zone and the form alone, sends no request and opens no file picker. *)
Theorem exchange_frame r st :
  outside_exchange (fst (exchange r st)) = outside_exchange st.
Proof.
  pose proof (exchange_cases r st) as Hcases. cbv zeta in Hcases.
  exact (proj1 Hcases).
Qed.

(** ** What every run of events keeps *)

Lemma handleFileSelection_cases file st :
  (accepts file = true /\
   handleFileSelection file st =
   {| currentFile := Some file;
      csrfToken := csrfToken st;
      uploadForm_action := uploadForm_action st;
      dom := set_analyzeBtn_disabled false
               (set_selectedFile_textContent ("Selected file: " ++ name file)
                  (dom st));
      world := world st |}) \/
  (accepts file = false /\
   handleFileSelection file st = alert "Please upload an audio file" st).
Proof.
  destruct (accepts file) eqn:Hacc.
  - left. split; [reflexivity|]. apply handleFileSelection_accepted, Hacc.
  - right. split; [reflexivity|]. apply handleFileSelection_rejected, Hacc.
Qed.

(** The settling of an exchange, as a step of the page. *)
Lemma step_settled r st :
  let st' := step (Settled r) st in
  st' = st \/
  (in_flight st = true /\
   currentFile st' = currentFile st /\
   csrfToken st' = csrfToken st /\
   uploadForm_action st' = uploadForm_action st /\
   requests (world st') = requests (world st) /\
   loading_display (dom st') = "none").
Proof.
  cbv zeta. cbn [step]. unfold in_flight.
  destruct (pending (world st)) as [|n] eqn:Hpending; [left; reflexivity|].
  right. split; [reflexivity|].
  match goal with
  | |- context [exchange r ?s] =>
      pose proof (exchange_cases r s) as Hcases; cbv zeta in Hcases;
      destruct Hcases as (Hout & Hload & _)
  end.
  unfold outside_exchange in Hout.
  injection Hout as Hfile Htoken Haction _ _ _ Hreq _ _.
  repeat split; assumption.
Qed.

(** What a step does to the held file, the form and the requests. *)
Lemma step_control ev st :
  let st' := step ev st in
  csrfToken st' = csrfToken st /\
  uploadForm_action st' = uploadForm_action st /\
  (currentFile st' = currentFile st \/
   exists file, accepts file = true /\ currentFile st' = Some file) /\
  (requests (world st') = requests (world st) \/
   exists file,
     ev = AnalyzeClick /\ currentFile st = Some file /\
     requests (world st') = (requests (world st) ++ [upload st file])%list).
Proof.
  cbv zeta.
  destruct ev as [ | [|file files] | | | [|file files] | | r | ];
    try (repeat split; left; reflexivity).
  - cbn [step fileInput_change].
    destruct (handleFileSelection_cases file st) as [[Hacc ->] | [Hacc ->]].
    + repeat split; [right; exists file; split; [exact Hacc | reflexivity]
                    | left; reflexivity].
    + repeat split; left; reflexivity.
  - cbn [step dropZone_drop].
    match goal with
    | |- context [handleFileSelection file ?s] =>
        destruct (handleFileSelection_cases file s) as [[Hacc ->] | [Hacc ->]]
    end.
    + repeat split; [right; exists file; split; [exact Hacc | reflexivity]
                    | left; reflexivity].
    + repeat split; left; reflexivity.
  - cbn [step]. destruct (analyzeBtn_disabled (dom st));
      [repeat split; left; reflexivity|].
    unfold analyzeBtn_click.
    destruct (currentFile st) as [file|] eqn:Hfile;
      [| rewrite ?Hfile; repeat split; left; reflexivity].
    repeat split; [left; exact Hfile|].
    right. exists file. repeat split.
  - destruct (step_settled r st) as [-> | (_ & Hfile & Htoken & Haction & Hreq & _)].
    + repeat split; left; reflexivity.
    + repeat split; try assumption; left; assumption.
Qed.

Lemma step_holds_audio ev st : holds_audio st -> holds_audio (step ev st).
Proof.
  intros Hst file Hfile.
  destruct (step_control ev st) as (_ & _ & [Hsame | (f & Hacc & Hnew)] & _).
  - apply Hst. rewrite <- Hsame. exact Hfile.
  - rewrite Hnew in Hfile. injection Hfile as <-. exact Hacc.
Qed.

Lemma upload_config st st' file :
  csrfToken st' = csrfToken st ->
  uploadForm_action st' = uploadForm_action st ->
  upload st' file = upload st file.
Proof. unfold upload. intros -> ->. reflexivity. Qed.

Lemma step_uploads_only ev st :
  holds_audio st -> uploads_only st -> uploads_only (step ev st).
Proof.
  intros Haudio Hreqs. unfold uploads_only in *.
  destruct (step_control ev st)
    as (Htoken & Haction & _ & [-> | (file & _ & Hfile & ->)]).
  - eapply Forall_impl; [|exact Hreqs].
    intros r (file & Hacc & ->). exists file. split; [exact Hacc|].
    symmetry. apply upload_config; assumption.
  - apply Forall_app. split.
    + eapply Forall_impl; [|exact Hreqs].
      intros r (f & Hacc & ->). exists f. split; [exact Hacc|].
      symmetry. apply upload_config; assumption.
    + constructor; [|constructor].
      exists file. split; [apply Haudio, Hfile|].
      symmetry. apply upload_config; assumption.
Qed.

(** X8. The held file is always an audio file: if it is one (or absent)
    to begin with, it is one (or absent) after every run of events, and
    every request sent along the way uploads an audio file to the form's
    address with the page's token. *)
Theorem only_audio_is_held_and_sent evs : forall st,
  holds_audio st -> uploads_only st ->
  holds_audio (run evs st) /\ uploads_only (run evs st).
Proof.
  induction evs as [|ev evs IH]; intros st Haudio Hreqs;
    [split; assumption|].
  cbn [run fold_left]. fold (run evs (step ev st)).
  apply IH; [apply step_holds_audio | apply step_uploads_only]; assumption.
Qed.

Lemma only_audio_is_held_and_sent_witness :
  holds_audio Sample.loaded /\ uploads_only Sample.loaded /\
  uploads_only
    (run [Drop [Sample.picture]; FileInputChange [Sample.recording];
          AnalyzeClick; FileInputChange [Sample.other_recording];
          AnalyzeClick]
       Sample.loaded).
Proof.
  assert (Haudio : holds_audio Sample.loaded)
    by (intros file Hfile; discriminate Hfile).
  assert (Hreqs : uploads_only Sample.loaded) by constructor.
  split; [exact Haudio|]. split; [exact Hreqs|].
  apply only_audio_is_held_and_sent; assumption.
Defined.

Lemma run_keeps (P : Page -> Prop) :
  (forall ev st, P st -> P (step ev st)) ->
  forall evs st, P st -> P (run evs st).
Proof.
  intros Hstep. induction evs as [|ev evs IH]; intros st Hst; [exact Hst|].
  cbn [run fold_left]. fold (run evs (step ev st)). apply IH, Hstep, Hst.
Qed.

Lemma step_submit_gated ev st : submit_gated st -> submit_gated (step ev st).
Proof.
  intros Hst.
  destruct ev as [ | [|file files] | | | [|file files] | | r | ];
    try exact Hst.
  - unfold submit_gated. cbn [step fileInput_change].
    destruct (handleFileSelection_cases file st) as [[_ ->] | [_ ->]];
      [intros _; discriminate | exact Hst].
  - unfold submit_gated. cbn [step dropZone_drop].
    match goal with
    | |- context [handleFileSelection file ?s] =>
        destruct (handleFileSelection_cases file s) as [[_ ->] | [_ ->]]
    end; [intros _; discriminate | exact Hst].
  - unfold submit_gated. cbn [step].
    destruct (analyzeBtn_disabled (dom st)) eqn:Hdis; [exact Hst|].
    unfold analyzeBtn_click.
    destruct (currentFile st) as [file|] eqn:Hfile.
    + intros _. cbn. rewrite Hfile. discriminate.
    + exact Hst.
  - destruct (step_settled r st) as [-> | (Hflight & Hfile & _)];
      [exact Hst|].
    intros _. rewrite Hfile. apply Hst. right. exact Hflight.
Qed.

(** X9. The submit button is never enabled without a file: on a page
    where the button is enabled, or an exchange pending, only with a file
    held, this stays so after every run of events, and a click on the
    enabled button always sends the held file. *)
Theorem enabled_submit_sends_held_file evs st :
  submit_gated st ->
  let st' := run evs st in
  submit_gated st' /\
  (analyzeBtn_disabled (dom st') = false ->
   exists file,
     currentFile st' = Some file /\
     requests (world (step AnalyzeClick st'))
       = (requests (world st') ++ [upload st' file])%list).
Proof.
  intros Hst. cbv zeta.
  pose proof (run_keeps submit_gated step_submit_gated evs st Hst) as Hrun.
  split; [exact Hrun|].
  intros Hdis.
  destruct (currentFile (run evs st)) as [file|] eqn:Hfile.
  - exists file. split; [reflexivity|].
    cbn [step]. rewrite Hdis. unfold analyzeBtn_click. rewrite Hfile.
    reflexivity.
  - exfalso. apply Hrun; [left; exact Hdis | exact Hfile].
Qed.

Lemma enabled_submit_sends_held_file_witness :
  submit_gated Sample.loaded /\
  submit_gated
    (run [FileInputChange [Sample.recording]; AnalyzeClick;
          Settled (Sample.respond JS.VNull); Drop [Sample.picture]]
       Sample.loaded).
Proof.
  assert (Hst : submit_gated Sample.loaded).
  { intros [Hdis | Hflight]; [discriminate Hdis | discriminate Hflight]. }
  split; [exact Hst|].
  exact (proj1 (enabled_submit_sends_held_file _ Sample.loaded Hst)).
Defined.

Lemma step_loading_means_pending ev st :
  loading_means_pending st -> loading_means_pending (step ev st).
Proof.
  intros Hst.
  destruct ev as [ | [|file files] | | | [|file files] | | r | ];
    try exact Hst.
  - unfold loading_means_pending. cbn [step fileInput_change].
    destruct (handleFileSelection_cases file st) as [[_ ->] | [_ ->]];
      exact Hst.
  - unfold loading_means_pending. cbn [step dropZone_drop].
    match goal with
    | |- context [handleFileSelection file ?s] =>
        destruct (handleFileSelection_cases file s) as [[_ ->] | [_ ->]]
    end; exact Hst.
  - unfold loading_means_pending. cbn [step].
    destruct (analyzeBtn_disabled (dom st)) eqn:Hdis; [exact Hst|].
    unfold analyzeBtn_click.
    destruct (currentFile st) as [file|] eqn:Hfile.
    + intros _. reflexivity.
    + exact Hst.
  - destruct (step_settled r st) as [-> | (_ & _ & _ & _ & _ & Hload)];
      [exact Hst|].
    intros Hshown. rewrite Hload in Hshown. discriminate Hshown.
Qed.

(** X10. The loading indicator is shown only while an exchange is
    pending: if that holds of a page, it holds after every run of
    events. *)
Theorem loading_shown_only_while_pending evs st :
  loading_means_pending st -> loading_means_pending (run evs st).
Proof. apply run_keeps. exact step_loading_means_pending. Qed.

Lemma loading_shown_only_while_pending_witness :
  loading_means_pending Sample.loaded /\
  loading_means_pending
    (run [FileInputChange [Sample.recording]; AnalyzeClick; DragOver]
       Sample.loaded).
Proof.
  assert (Hst : loading_means_pending Sample.loaded)
    by (intros Hshown; discriminate Hshown).
  split; [exact Hst|].
  exact (loading_shown_only_while_pending _ Sample.loaded Hst).
Defined.

(** X11. Only clicks on the submit button send requests: a run of events
    sends at most one request per click in it, and appends to the
    requests already sent. *)
Theorem only_clicks_send_requests evs : forall st,
  exists sent,
    requests (world (run evs st)) = (requests (world st) ++ sent)%list /\
    (List.length sent <= List.length (filter is_click evs))%nat.
Proof.
  induction evs as [|ev evs IH]; intros st.
  - exists []. rewrite app_nil_r. split; [reflexivity | apply le_n].
  - cbn [run fold_left]. fold (run evs (step ev st)).
    destruct (IH (step ev st)) as (sent & -> & Hlen).
    destruct (step_control ev st)
      as (_ & _ & _ & [-> | (file & -> & _ & ->)]).
    + exists sent. split; [reflexivity|].
      cbn [filter]. destruct (is_click ev); cbn [List.length]; lia.
    + exists (upload st file :: sent). rewrite <- app_assoc.
      split; [reflexivity|]. cbn. lia.
Qed.

(** ** Selection and the drop zone *)

(** X12. An accepted selection replaces the one before it wholesale:
    choosing a second audio file after a first leaves the page that
    choosing the second alone leaves. *)
Theorem last_accepted_selection_wins first second st :
  Str.startsWith (type first) "audio/" = true ->
  Str.startsWith (type second) "audio/" = true ->
  handleFileSelection second (handleFileSelection first st)
    = handleFileSelection second st.
Proof.
  intros Hfirst Hsecond.
  rewrite !handleFileSelection_accepted by assumption.
  destruct st as [file token action d w]. destruct d. reflexivity.
Qed.

Lemma last_accepted_selection_wins_witness :
  Str.startsWith (type Sample.recording) "audio/" = true /\
  Str.startsWith (type Sample.other_recording) "audio/" = true /\
  handleFileSelection Sample.other_recording
    (handleFileSelection Sample.recording Sample.loaded)
  = handleFileSelection Sample.other_recording Sample.loaded.
Proof.
  split; [reflexivity|]. split; [reflexivity|].
  apply last_accepted_selection_wins; reflexivity.
Defined.

(** X13. The two ways in lead to the same routine, and only the first
    file of a list counts: a drop is a drag-leave followed by a change of
    the file input to the first file dropped, and a change to several
    files is a change to the first. *)
Theorem drop_is_leave_then_change file files st :
  step (Drop (file :: files)) st
    = step (FileInputChange [file]) (step DragLeave st) /\
  step (FileInputChange (file :: files)) st
    = step (FileInputChange [file]) st.
Proof. split; reflexivity. Qed.

Lemma drag_then_drag first second st :
  is_drag first = true -> is_drag second = true ->
  step second (step first st) = step second st.
Proof.
  destruct st as [file token action d w]. destruct d.
  destruct first; try discriminate; destruct second; try discriminate;
    reflexivity.
Qed.

Lemma last_drag evs : forall ev,
  forallb is_drag (ev :: evs) = true ->
  is_drag (last (ev :: evs) BrowseClick) = true.
Proof.
  induction evs as [|ev' evs IH]; intros ev Hevs.
  - cbn in *. now rewrite andb_true_r in Hevs.
  - change (last (ev :: ev' :: evs) BrowseClick)
      with (last (ev' :: evs) BrowseClick).
    apply IH. cbn [forallb] in Hevs.
    apply andb_true_iff in Hevs as [_ Hevs]. exact Hevs.
Qed.

Lemma after_drags_step evs st :
  evs <> [] -> forallb is_drag evs = true ->
  after_drags evs st = step (last evs BrowseClick) st.
Proof.
  intros Hne Hevs. destruct evs as [|ev evs]; [contradiction|].
  pose proof (last_drag evs ev Hevs) as Hlast. unfold after_drags.
  destruct (last (ev :: evs) BrowseClick); try discriminate Hlast;
    reflexivity.
Qed.

(** X14. Dragging over and leaving the drop zone is cosmetic and without
    memory: a run of such events leaves the page that its last event
    alone leaves, which differs from the page before in the two colours
    of the drop zone at most. *)
Theorem drags_are_cosmetic evs st :
  forallb is_drag evs = true ->
  run evs st = after_drags evs st /\
  currentFile (run evs st) = currentFile st /\
  world (run evs st) = world st /\
  set_dropZone_background (dropZone_background (dom st))
    (set_dropZone_borderColor (dropZone_borderColor (dom st))
       (dom (run evs st)))
  = dom st.
Proof.
  assert (Hrun : forall l p,
            forallb is_drag l = true -> run l p = after_drags l p).
  { clear evs st.
    induction l as [|ev evs IH]; intros st Hevs; [reflexivity|].
    cbn [run fold_left]. fold (run evs (step ev st)).
    pose proof Hevs as Hall.
    cbn [forallb] in Hevs. apply andb_true_iff in Hevs as [Hev Hevs].
    rewrite (IH _ Hevs).
    rewrite (after_drags_step (ev :: evs) st) by (discriminate || exact Hall).
    destruct evs as [|ev' evs]; [reflexivity|].
    rewrite after_drags_step by (discriminate || exact Hevs).
    change (last (ev :: ev' :: evs) BrowseClick)
      with (last (ev' :: evs) BrowseClick).
    apply drag_then_drag; [exact Hev | apply last_drag, Hevs]. }
  intros Hevs. rewrite (Hrun evs st Hevs).
  split; [reflexivity|].
  unfold after_drags.
  destruct st as [file token action d w]. destruct d.
  destruct (last evs BrowseClick); repeat split.
Qed.

Lemma drags_are_cosmetic_witness :
  forallb is_drag [DragOver; DragOver; DragLeave; DragOver] = true /\
  run [DragOver; DragOver; DragLeave; DragOver] Sample.shown
    = dropZone_dragover Sample.shown.
Proof.
  split; [reflexivity|].
  exact (proj1 (drags_are_cosmetic [DragOver; DragOver; DragLeave; DragOver]
                  Sample.shown eq_refl)).
Defined.

(** ** The display name of a feature *)

Lemma capitalize_from_length s : forall prev,
  String.length (Str.capitalize_from prev s) = String.length s.
Proof.
  induction s as [|c s IH]; intros prev; cbn; [reflexivity|].
  now rewrite IH.
Qed.

Lemma str_map_length f s : String.length (Str.map f s) = String.length s.
Proof. induction s as [|c s IH]; cbn; [reflexivity | now rewrite IH]. Qed.

(** What one turn of the two replacements does to a character, and that
    doing it again changes nothing. *)
Lemma displayed_twice (c : ascii) (prev : bool) :
  let replaced := if Ascii.eqb c "_" then " "%char else c in
  let shown :=
    if Str.is_word replaced && negb prev then Str.toUpperCase replaced
    else replaced in
  Ascii.eqb shown "_" = false /\
  Str.is_word shown = Str.is_word replaced /\
  (if Str.is_word shown && negb prev then Str.toUpperCase shown else shown)
    = shown.
Proof.
  destruct c as [[] [] [] [] [] [] [] []]; destruct prev;
    vm_compute; repeat split.
Qed.

Lemma capitalize_replace_twice s : forall prev,
  Str.capitalize_from prev
    (Str.replace_underscores
       (Str.capitalize_from prev (Str.replace_underscores s)))
  = Str.capitalize_from prev (Str.replace_underscores s).
Proof.
  unfold Str.replace_underscores.
  induction s as [|c s IH]; intros prev; [reflexivity|].
  cbn [Str.map Str.capitalize_from].
  destruct (displayed_twice c prev) as (Hnot & Hword & Hsame).
  cbv zeta in Hnot, Hword, Hsame.
  rewrite Hnot, Hsame, Hword, IH. reflexivity.
Qed.

(** X15. Display names are stable: formatting a display name again gives
    the same name. A display name has the length of its key and holds no
    underscore. *)
Theorem displayName_stable key :
  displayName (displayName key) = displayName key /\
  String.length (displayName key) = String.length key /\
  forall i, String.get i (displayName key) <> Some "_"%char.
Proof.
  split; [|split].
  - apply capitalize_replace_twice.
  - unfold displayName, Str.capitalize_words, Str.replace_underscores.
    now rewrite capitalize_from_length, str_map_length.
  - intros i. rewrite displayName_get.
    destruct (String.get i key) as [c|]; [|discriminate].
    cbn [option_map]. intros Heq. injection Heq as Heq.
    revert Heq. unfold displayed_char.
    generalize (match char_before key i with
                | Some p => is_alnum p
                | None => false
                end). intros b.
    destruct c as [[] [] [] [] [] [] [] []]; destruct b;
      vm_compute; discriminate.
Qed.

(** ** Rendering and the whole cycle *)

(** X16. A complete rendering whose gauge width is taken replaces what
    was rendered before: after it the document is the one that this
    rendering alone produces, whatever score and features were rendered
    first and however that first rendering ended. *)
Theorem rendering_replaces_previous x features entries score0 features0 st :
  JS.entries features = JS.Normal entries ->
  Forall converts entries ->
  width_accepts (Number.mul x n100) = true ->
  dom (fst (updateResults (JS.VNum x) features
              (fst (updateResults score0 features0 st))))
  = dom (fst (updateResults (JS.VNum x) features st)).
Proof.
  intros Hentries Hconv Hwidth.
  destruct (loop_completes entries Hconv) as [Hend _].
  pose proof (updateResults_outside score0 features0 st) as Hfirst.
  cbv zeta in Hfirst. destruct Hfirst as (Hout & _ & _ & Hload & Hdis).
  unfold outside_exchange in Hout.
  injection Hout as _ _ _ Htext Hback Hborder _ _ _.
  rewrite !updateResults_number, Hentries, Hend.
  cbn [fst dom]. unfold rendered, gauge_width.
  rewrite Hwidth, Htext, Hback, Hborder, Hload, Hdis. reflexivity.
Qed.

Lemma rendering_replaces_previous_witness :
  JS.entries (JS.VObj [("jitter", Sample.num 5 2)])
    = JS.Normal [("jitter", Sample.num 5 2)] /\
  Forall converts [("jitter", Sample.num 5 2)] /\
  width_accepts (Number.mul (Number.of_decimal 29 2) n100) = true /\
  dom (fst (updateResults (Sample.num 29 2)
              (JS.VObj [("jitter", Sample.num 5 2)])
              (fst (updateResults (Sample.num 75 2) JS.VNull
                      Sample.loaded))))
  = dom (fst (updateResults (Sample.num 29 2)
                (JS.VObj [("jitter", Sample.num 5 2)]) Sample.loaded)).
Proof.
  assert (Hentries : JS.entries (JS.VObj [("jitter", Sample.num 5 2)])
                     = JS.Normal [("jitter", Sample.num 5 2)])
    by (vm_compute; reflexivity).
  assert (Hconv : Forall converts [("jitter", Sample.num 5 2)])
    by (repeat constructor; eexists; reflexivity).
  assert (Hwidth : width_accepts (Number.mul (Number.of_decimal 29 2) n100)
                   = true) by (vm_compute; reflexivity).
  split; [exact Hentries|]. split; [exact Hconv|]. split; [exact Hwidth|].
  exact (rendering_replaces_previous (Number.of_decimal 29 2)
           (JS.VObj [("jitter", Sample.num 5 2)]) _
           (Sample.num 75 2) JS.VNull Sample.loaded Hentries Hconv Hwidth).
Defined.

Lemma indexed_length {A : Type} (f : A -> JS.value) l : forall i,
  List.length (JS.indexed f i l) = List.length l.
Proof.
  induction l as [|a l IH]; intros i; cbn; [reflexivity|].
  now rewrite IH.
Qed.

Lemma chars_length s : List.length (Str.chars s) = String.length s.
Proof.
  unfold Str.chars. induction s as [|c s IH]; cbn; [reflexivity|].
  now rewrite IH.
Qed.

Lemma indexed_converts {A : Type} (f : A -> JS.value) l : forall i,
  Forall (fun a => exists n, JS.ToNumber (f a) = JS.Normal n) l ->
  Forall converts (JS.indexed f i l).
Proof.
  induction l as [|a l IH]; intros i Hall; cbn [JS.indexed]; [constructor|].
  inversion Hall as [|? ? Ha Hl]; subst.
  constructor; [exact Ha | apply IH, Hl].
Qed.

(** The elements after a rendering whose entries all have contributions
    with number values: as many as the entries. *)
Lemma features_after_length x features entries st :
  JS.entries features = JS.Normal entries ->
  Forall converts entries ->
  List.length (features_after (JS.VNum x) features st) = List.length entries /\
  snd (updateResults (JS.VNum x) features st) = JS.Normal tt.
Proof.
  intros Hentries Hconv.
  destruct (loop_completes entries Hconv) as [Hend Hels].
  unfold features_after. rewrite updateResults_number, Hentries, Hend.
  split; [|reflexivity].
  symmetry. exact (Forall2_length Hels).
Qed.

(** X17. The breakdown has one element per entry of the features,
    whatever kind of value they are, as long as every contribution has a
    number value: one per property of an object, one per item of an
    array, one per character of a string, whose contributions are its
    characters, and none for a number or a boolean; in each of these
    cases the rendering completes. *)
Theorem breakdown_size x st :
  (forall props,
     Forall converts props ->
     List.length (features_after (JS.VNum x) (JS.VObj props) st)
       = List.length props) /\
  (forall items,
     Forall (fun v => exists n, JS.ToNumber v = JS.Normal n) items ->
     List.length (features_after (JS.VNum x) (JS.VArr items) st)
       = List.length items) /\
  (forall s,
     List.length (features_after (JS.VNum x) (JS.VStr s) st)
       = String.length s) /\
  (forall y, features_after (JS.VNum x) (JS.VNum y) st = []) /\
  (forall b, features_after (JS.VNum x) (JS.VBool b) st = []) /\
  (forall features entries,
     JS.entries features = JS.Normal entries ->
     Forall converts entries ->
     snd (updateResults (JS.VNum x) features st) = JS.Normal tt).
Proof.
  split; [|split; [|split; [|split; [|split]]]].
  - intros props Hconv.
    assert (Hentries : Forall converts (JS.own_entries props))
      by (apply (Permutation_Forall (Permutation_sym (own_entries_perm props))),
            Hconv).
    rewrite (proj1 (features_after_length x (JS.VObj props) _ st eq_refl
                      Hentries)).
    apply Permutation_length, own_entries_perm.
  - intros items Hconv.
    rewrite (proj1 (features_after_length x (JS.VArr items) _ st eq_refl
                      (indexed_converts (fun v => v) items 0 Hconv))).
    apply indexed_length.
  - intros s.
    assert (Hconv : Forall converts
                      (JS.indexed (fun c => JS.VStr (String c EmptyString)) 0
                         (Str.chars s))).
    { apply indexed_converts. apply Forall_forall. intros c _.
      eexists. reflexivity. }
    rewrite (proj1 (features_after_length x (JS.VStr s) _ st eq_refl Hconv)).
    rewrite indexed_length. apply chars_length.
  - intros y. unfold features_after. rewrite updateResults_number. reflexivity.
  - intros b. unfold features_after. rewrite updateResults_number. reflexivity.
  - intros features entries Hentries Hconv.
    exact (proj2 (features_after_length x features entries st Hentries Hconv)).
Qed.

Lemma breakdown_size_witness :
  Forall (fun v => exists n, JS.ToNumber v = JS.Normal n) [Sample.num 1 1] /\
  List.length (features_after (Sample.num 5 1) (JS.VArr [Sample.num 1 1])
                 Sample.loaded) = 1%nat.
Proof.
  assert (Hconv : Forall (fun v => exists n, JS.ToNumber v = JS.Normal n)
                    [Sample.num 1 1])
    by (repeat constructor; eexists; reflexivity).
  split; [exact Hconv|].
  destruct (breakdown_size (Number.of_decimal 5 1) Sample.loaded)
    as (_ & Hitems & _).
  exact (Hitems _ Hconv).
Defined.

(** X18. The label is given without a range check: a rendered score
    below zero is labelled "Low Stress", and one above 1, infinite or
    not a number is labelled "High Stress". *)
Theorem label_out_of_range x features st :
  (Number.ltb x Number.zero = true ->
   label_after (JS.VNum x) features st = "Low Stress") /\
  (Number.ltb n1 x = true \/ x = Number.NaN ->
   label_after (JS.VNum x) features st = "High Stress").
Proof.
  rewrite label_after_number. unfold stress_label.
  rewrite n0_3_repr, n0_6_repr, n1_repr.
  split.
  - destruct x as [[|] | [|] | | [|] m e]; try discriminate; reflexivity.
  - intros [Hlt | ->]; [|reflexivity].
    destruct x as [[|] | [|] | | [|] m e]; try discriminate Hlt;
      [reflexivity|].
    apply ltb_positive in Hlt.
    assert (Hbelow : forall e', e' <= -53 ->
              Number.ltb (S754_finite false m e)
                (S754_finite false 5404319552844595 e') = false).
    { intros e' He'.
      destruct (Number.ltb (S754_finite false m e)
                  (S754_finite false 5404319552844595 e')) eqn:H;
        [|reflexivity].
      apply ltb_positive in H.
      destruct Hlt as [Hlt | [Hlt _]], H as [H | [H _]]; lia. }
    rewrite (Hbelow (-54)), (Hbelow (-53)) by lia. reflexivity.
Qed.

Lemma label_out_of_range_witness :
  Number.ltb n1 (Number.of_decimal 15 1) = true /\
  label_after (Sample.num 15 1) (JS.VObj []) Sample.loaded = "High Stress".
Proof.
  assert (Hlt : Number.ltb n1 (Number.of_decimal 15 1) = true)
    by (vm_compute; reflexivity).
  split; [exact Hlt|].
  exact (proj2 (label_out_of_range (Number.of_decimal 15 1) (JS.VObj [])
                  Sample.loaded) (or_introl Hlt)).
Defined.

(** X19. One cycle of use: from any page, choosing an audio file,
    clicking the submit button and the settling of the exchange, however
    it ends, sends exactly one request, which carries that file and the
    page's token, and leaves the file held, the button enabled, the
    loading indicator hidden and as many exchanges pending as before. *)
Theorem submission_cycle file r st :
  Str.startsWith (type file) "audio/" = true ->
  let st' := run [FileInputChange [file]; AnalyzeClick; Settled r] st in
  currentFile st' = Some file /\
  requests (world st') = (requests (world st) ++ [upload st file])%list /\
  pending (world st') = pending (world st) /\
  analyzeBtn_disabled (dom st') = false /\
  loading_display (dom st') = "none" /\
  selectedFile_textContent (dom st') = "Selected file: " ++ name file.
Proof.
  intros Hacc. cbv zeta.
  change (run [FileInputChange [file]; AnalyzeClick; Settled r] st)
    with (step (Settled r)
            (step AnalyzeClick (step (FileInputChange [file]) st))).
  assert (Hsent :
    step AnalyzeClick (step (FileInputChange [file]) st) =
    fetch (upload st file)
      (on_dom (set_analyzeBtn_disabled true)
         (on_dom (set_resultContainer_display "none")
            (on_dom (set_loading_display "block")
               (handleFileSelection file st))))).
  { cbn [step fileInput_change].
    rewrite handleFileSelection_accepted by exact Hacc. reflexivity. }
  rewrite Hsent. cbn [step].
  cbn [fetch on_world world set_world set_pending pending].
  match goal with
  | |- context [exchange r ?s] =>
      pose proof (exchange_cases r s) as Hcases; cbv zeta in Hcases;
      destruct Hcases as (Hout & Hload & Hdis & _);
      set (sent := s) in *
  end.
  unfold outside_exchange in Hout.
  injection Hout as Hfile _ _ Htext _ _ Hreq Hpending _.
  rewrite Hfile, Hreq, Hpending, Hload, Hdis, Htext.
  subst sent. rewrite handleFileSelection_accepted by exact Hacc.
  repeat split.
Qed.

Lemma submission_cycle_witness :
  Str.startsWith (type Sample.recording) "audio/" = true /\
  List.length
    (requests
       (world (run [FileInputChange [Sample.recording]; AnalyzeClick;
                    Settled (Sample.respond JS.VNull)] Sample.shown)))
  = 2%nat.
Proof.
  split; [reflexivity|].
  destruct (submission_cycle Sample.recording (Sample.respond JS.VNull)
              Sample.shown eq_refl) as (_ & Hreq & _).
  rewrite Hreq. reflexivity.
Defined.

(** ** Values without a primitive and widths that are not taken *)

Lemma ToNumber_throws v e :
  JS.ToNumber v = JS.Throw e ->
  e = JS.TypeError "Cannot convert object to primitive value".
Proof.
  destruct v as [ | | b | x | s | items | props ]; cbn [JS.ToNumber];
    try discriminate.
  - destruct (JS.ToString (JS.VArr items)) as [text | e'] eqn:Htext;
      cbn [JS.bind]; [discriminate|].
    intros H. injection H as <-. exact (ToString_throws _ _ Htext).
  - destruct (JS.ToString (JS.VObj props)) as [text | e'] eqn:Htext;
      cbn [JS.bind]; [discriminate|].
    intros H. injection H as <-. exact (ToString_throws _ _ Htext).
Qed.

(** The loop over entries of which the first without a number value comes
    after [done]. *)
Lemma loop_stops done key c rest e :
  Forall converts done ->
  JS.ToNumber c = JS.Throw e ->
  loop_end (done ++ (key, c) :: rest) = JS.Throw e /\
  appended (done ++ (key, c) :: rest) = appended done.
Proof.
  intros Hconv Hc.
  induction Hconv as [|entry done Hentry _ IH]; cbn [app loop_end appended].
  - rewrite (featureEl_throws key c e Hc). split; reflexivity.
  - destruct entry as [key' c']. destruct Hentry as [n Hn]. cbn [snd] in Hn.
    rewrite (featureEl_converts key' c' n Hn).
    destruct IH as [-> ->]. split; reflexivity.
Qed.

(** X20. A contribution without a primitive value stops the rendering in
    the middle of the breakdown. When the body has a truthy [success], a
    number as [score] and features of which the first contribution that
    has no number value comes after the entries [done], the score text,
    the gauge and the label are written and the elements of [done] are
    built, but no more: the display of the result container is left as it
    was and no timer is set, the [TypeError] of the conversion is logged,
    the generic alert is shown and the cleanup runs. An object has no
    number value exactly when it has a [toString] property of its own. *)
Theorem opaque_contribution_stops_rendering
  data success x done key c rest e st :
  JS.get data "success" = JS.Normal success ->
  JS.ToBoolean success = true ->
  field data "score" = JS.VNum x ->
  JS.entries (field data "features")
    = JS.Normal (done ++ (key, c) :: rest)%list ->
  Forall converts done ->
  JS.ToNumber c = JS.Throw e ->
  let st' := fst (exchange (JS.Normal {| json := JS.Normal data |}) st) in
  (exists els,
     Forall2 (fun kv el => featureEl kv = JS.Normal el) done els /\
     rendering (dom st') =
       (Number.toFixed x 2,
        if width_accepts (Number.mul x n100)
        then Number.toString (Number.mul x n100) ++ "%"
        else scoreFill_width (dom st),
        stress_label x, els, resultContainer_display (dom st))) /\
  JS.name e = "TypeError" /\
  alerts (world st') =
    (alerts (world st) ++ ["An error occurred while processing the file."])
    %list /\
  console_errors (world st') =
    (console_errors (world st) ++ [("Error:", e)])%list /\
  timeouts (world st') = timeouts (world st) /\
  loading_display (dom st') = "none" /\
  analyzeBtn_disabled (dom st') = false /\
  (forall props,
     (exists e', JS.ToNumber (JS.VObj props) = JS.Throw e') <->
     JS.has_own "toString" props = true).
Proof.
  intros Hget Htruthy Hscore Hentries Hconv Hc. cbv zeta.
  destruct (loop_completes done Hconv) as [_ Hels].
  destruct (loop_stops done key c rest e Hconv Hc) as [Hend Happended].
  rewrite exchange_of_data, (on_data_success data success st Hget Htruthy).
  rewrite Hscore, updateResults_number, Hentries, Hend, Happended.
  split; [exists (appended done); split; [exact Hels | reflexivity]|].
  split; [rewrite (ToNumber_throws c e Hc); reflexivity|].
  repeat (split; [reflexivity|]).
  intros props. cbn [JS.ToNumber JS.ToString].
  unfold JS.object_to_primitive.
  destruct (JS.has_own "toString" props); cbn [JS.bind].
  - split; [reflexivity | eexists; reflexivity].
  - split; [intros [e' H]; discriminate H | discriminate].
Qed.

Lemma opaque_contribution_stops_rendering_witness :
  JS.ToNumber Scenario.opaque
    = JS.Throw (JS.TypeError "Cannot convert object to primitive value") /\
  List.length
    (featuresContainer
       (dom (fst (exchange (Sample.respond Scenario.scored_with_opaque)
                    Sample.waiting)))) = 1%nat /\
  resultContainer_display
    (dom (fst (exchange (Sample.respond Scenario.scored_with_opaque)
                 Sample.waiting))) = "none" /\
  alerts
    (world (fst (exchange (Sample.respond Scenario.scored_with_opaque)
                   Sample.waiting)))
  = ["An error occurred while processing the file."].
Proof.
  assert (Hc : JS.ToNumber Scenario.opaque
               = JS.Throw (JS.TypeError
                             "Cannot convert object to primitive value"))
    by reflexivity.
  assert (Hconv : Forall converts [("jitter", Sample.num 1 1)])
    by (repeat constructor; eexists; reflexivity).
  split; [exact Hc|].
  destruct (opaque_contribution_stops_rendering
              Scenario.scored_with_opaque (JS.VBool true)
              (Number.of_decimal 5 1) [("jitter", Sample.num 1 1)]
              "shimmer" Scenario.opaque [("tempo", Sample.num 2 1)] _
              Sample.waiting eq_refl eq_refl eq_refl eq_refl Hconv Hc)
    as ((els & Hels & Hrendering) & _ & Halerts & _).
  unfold Sample.respond. split; [|split].
  - apply (f_equal (fun t => snd (fst t))) in Hrendering.
    cbn [rendering fst snd] in Hrendering. rewrite Hrendering.
    symmetry. exact (Forall2_length Hels).
  - apply (f_equal snd) in Hrendering.
    cbn [rendering snd] in Hrendering. rewrite Hrendering. reflexivity.
  - rewrite Halerts. reflexivity.
Defined.

(** X21. The gauge takes only a width that is a number and not negative.
    When [score * 100] is negative, infinite or not a number, the
    rendering leaves the gauge at the width it had and still writes the
    score text and the label; so it is for a score that is infinite or
    not a number and for the score -0.5, for which the page shows the
    text "-0.50" and the label "Low Stress" over the gauge of the
    rendering before. *)
Theorem invalid_gauge_width_is_ignored x features st :
  (width_accepts (Number.mul x n100) = false ->
   let st' := fst (updateResults (JS.VNum x) features st) in
   scoreFill_width (dom st') = scoreFill_width (dom st) /\
   scoreValue_textContent (dom st') = Number.toFixed x 2 /\
   scoreInterpretation_textContent (dom st') = stress_label x) /\
  (width_accepts (Number.mul x n100) = true ->
   scoreFill_width (dom (fst (updateResults (JS.VNum x) features st)))
   = Number.toString (Number.mul x n100) ++ "%") /\
  (forall s, width_accepts (Number.mul (S754_infinity s) n100) = false) /\
  width_accepts (Number.mul Number.NaN n100) = false /\
  width_accepts (Number.mul (SFopp (Number.of_decimal 5 1)) n100) = false /\
  (let st' :=
     fst (updateResults (JS.VNum (SFopp (Number.of_decimal 5 1)))
            (JS.VObj []) Sample.shown) in
   scoreFill_width (dom st') = "75%" /\
   scoreValue_textContent (dom st') = "-0.50" /\
   scoreInterpretation_textContent (dom st') = "Low Stress").
Proof.
  split; [|split; [|split; [|split; [|split]]]].
  - intros Hwidth. cbv zeta. rewrite updateResults_number.
    destruct (JS.entries features) as [entries | e];
      [destruct (loop_end entries) as [[] | e]|];
      cbn [fst dom set_dom rendered scoreFill_width scoreValue_textContent
           scoreInterpretation_textContent];
      unfold gauge_width; rewrite Hwidth; repeat split.
  - intros Hwidth. rewrite updateResults_number.
    destruct (JS.entries features) as [entries | e];
      [destruct (loop_end entries) as [[] | e]|];
      cbn [fst dom set_dom rendered scoreFill_width];
      unfold gauge_width; rewrite Hwidth; reflexivity.
  - intros s. rewrite n100_repr. destruct s; reflexivity.
  - reflexivity.
  - vm_compute. reflexivity.
  - cbv zeta. rewrite updateResults_number.
    repeat split; vm_compute; reflexivity.
Qed.

Lemma invalid_gauge_width_is_ignored_witness :
  width_accepts (Number.mul (SFopp (Number.of_decimal 5 1)) n100) = false /\
  scoreFill_width
    (dom (fst (updateResults (JS.VNum (SFopp (Number.of_decimal 5 1)))
                 JS.VNull Sample.shown)))
  = scoreFill_width (dom Sample.shown).
Proof.
  assert (Hwidth : width_accepts
                     (Number.mul (SFopp (Number.of_decimal 5 1)) n100) = false)
    by (vm_compute; reflexivity).
  split; [exact Hwidth|].
  exact (proj1 (proj1 (invalid_gauge_width_is_ignored
                         (SFopp (Number.of_decimal 5 1)) JS.VNull Sample.shown)
                  Hwidth)).
Defined.
